(** * lumos: application context and RPC image/event distribution

    A shallow embedding of [lumos/context.py] and [lumos/net.py].

    Python objects are records, attributes that may be missing are options,
    exceptions are an error result, and everything a method does to the
    outside (the clock, the thread that writes frames, the console, the RPC
    transport) goes through an explicit [World].  Clock readings
    ([time.time()]) are counted in milliseconds and their arithmetic is
    exact. *)

From Stdlib Require Import ZArith NArith List String Bool Lia.
Import ListNotations.
Open Scope string_scope.
Open Scope Z_scope.

(** ** Values shared by both modules *)

Definition Time := Z.

(** A [numpy.ndarray] frame. *)
Record Ndarray := mkNdarray { shape : list nat; pixels : list Z }.

(** The Python values an RPC reply or a stored image can be. *)
Inductive PyVal :=
| PyNone
| PyBool (b : bool)
| PyInt (n : Z)
| PyStr (s : string)
| PyArray (a : Ndarray).

(** Exceptions the two modules raise or let through. *)
Inductive PyExc :=
| Exception (msg : string)
| IOError (path : string)
| YAMLError
| AttributeError (attr : string)
| ValueError (msg : string).

(** Calls into the RPC transport ([rpc.export], [rpc.start_server_thread],
    [rpc.stop_server]) and lines sent to the console or to a logger. *)
Inductive Event :=
| EvPrint (text : string)
| EvWarn (text : string)
| EvError (text : string)
| EvInfo (text : string)
| EvNullHandler
| EvDictConfig (filename : string)
| EvSetLevel (level : Z)
| EvRpcExport (cls : string)
| EvRpcStart (port : Z)
| EvRpcStop.

(** What happens while the reading thread is inside one [time.sleep]: the
    sleep may last longer than asked, and the owning thread may have written
    a frame. *)
Record Tick := mkTick { oversleep : N; written : option Ndarray }.

Record World := mkWorld {
  now : Time;            (* what time.time() returns *)
  sched : list Tick;     (* the sleeps to come *)
  slept : nat;           (* calls of time.sleep so far *)
  events : list Event    (* newest last *)
}.

Definition emit (e : Event) (w : World) : World :=
  {| now := now w; sched := sched w; slept := slept w;
     events := events w ++ [e] |}.

(** ** Exceptions and state

    A method that can raise and that touches state of type [S] is a function
    from the state before to its result and the state after. *)

Inductive Result (A : Type) :=
| Ok (a : A)
| Raise (e : PyExc).
Arguments Ok {A} a.
Arguments Raise {A} e.

Definition M (S A : Type) : Type := S -> Result A * S.

Definition ret {S A} (a : A) : M S A := fun s => (Ok a, s).

Definition raise {S A} (e : PyExc) : M S A := fun s => (Raise e, s).

Definition bind {S A B} (c : M S A) (k : A -> M S B) : M S B :=
  fun s =>
    match c s with
    | (Ok a, s') => k a s'
    | (Raise e, s') => (Raise e, s')
    end.

(** [try: c  except ...: h e] where [h] re-raises what its clauses do not
    match. *)
Definition try_except {S A} (c : M S A) (h : PyExc -> M S A) : M S A :=
  fun s =>
    match c s with
    | (Ok a, s') => (Ok a, s')
    | (Raise e, s') => h e s'
    end.

Definition get {S} : M S S := fun s => (Ok s, s).

Definition modify {S} (f : S -> S) : M S unit := fun s => (Ok tt, f s).

Definition when {S} (b : bool) (c : M S unit) : M S unit :=
  if b then c else ret tt.

Declare Scope py_scope.
Delimit Scope py_scope with py.
Notation "x <- c ;; k" := (bind c (fun x => k))
  (at level 61, c at next level, right associativity) : py_scope.
Notation "c ;; k" := (bind c (fun _ => k))
  (at level 61, right associativity) : py_scope.
Open Scope py_scope.

(** ** ImageServer (net.py) *)

Module ImageServer.

Definition default_port : Z := 61616.
Definition default_read_call : string := "ImageServer.read".
Definition wait_interval : Time := 100.
Definition max_wait_duration : Time := 2000.

(** [image] is the attribute of the OutputDevice base class. *)
Record t := mk { image : option Ndarray; isFresh : bool }.

(** Modelled from the spec: [OutputDevice.__init__] and
    [OutputDevice.write] live in lumos/output.py, which is not part of the
    sources at hand; the spec has the image absent until the first write
    and [write] store the frame unconditionally. *)
Definition OutputDevice_init : t := {| image := None; isFresh := false |}.

Definition write (img : Ndarray) (self : t) : t :=
  {| image := Some img; isFresh := isFresh self |}.

Definition __init__ (port : Z) (start_server : bool) (w : World) : t * World :=
  let self := {| image := image OutputDevice_init; isFresh := true |} in
  let w := emit (EvRpcExport "ImageServer") w in
  (self, if start_server then emit (EvRpcStart port) w else w).

(** [time.sleep(d)] on the handler thread: the clock moves on by at least
    [d], and the frame the owner wrote meanwhile, if any, is in [image]. *)
Definition sleep (d : Time) (self : t) (w : World) : t * World :=
  match sched w with
  | [] => (self, {| now := now w + d; sched := []; slept := S (slept w);
                 events := events w |})
  | tk :: rest =>
      (match written tk with
       | Some img => write img self
       | None => self
       end,
       {| now := now w + d + Z.of_N (oversleep tk);
          sched := rest; slept := S (slept w); events := events w |})
  end.

Definition is_None {A} (o : option A) : bool :=
  match o with None => true | Some _ => false end.

(** The [while] loop of [read]; [None] when [fuel] iterations were not
    enough. *)
Fixpoint wait_loop (fuel : nat) (waitStarted : Time) (self : t) (w : World)
  : option (t * World) :=
  if is_None (image self) && (now w - waitStarted <? max_wait_duration)
  then match fuel with
       | O => None
       | S fuel' =>
           let (self', w') := sleep wait_interval self w in
           wait_loop fuel' waitStarted self' w'
       end
  else Some (self, w).

(** Each sleep lasts at least [wait_interval], so the loop body runs at
    most [max_wait_duration / wait_interval] times. *)
Definition max_polls : nat := Z.to_nat (max_wait_duration / wait_interval).

Definition read (self : t) (w : World) : option (option Ndarray * t * World) :=
  if isFresh self then
    let waitStarted := now w in
    match wait_loop max_polls waitStarted self w with
    | Some (self', w') =>
        let self'' := {| image := image self'; isFresh := false |} in
        Some (image self'', self'', w')
    | None => None
    end
  else Some (image self, self, w).

Definition stop (self : t) (w : World) : t * World :=
  let self := {| image := None; isFresh := isFresh self |} in
  let self := {| image := image self; isFresh := true |} in
  (self, emit EvRpcStop w).





(** What holds when the wait loop started at [ws] hands over from
    [(self, w)] to [(self', w')]. *)
Definition wait_post (ws : Time) (self : t) (w : World) (self' : t) (w' : World)
  : Prop :=
  (image self' <> None \/ max_wait_duration <= now w' - ws) /\
  events w' = events w /\
  (slept w <= slept w')%nat /\
  now w + wait_interval * Z.of_nat (slept w' - slept w) <= now w' /\
  (image self' = image self \/
   exists tk, In tk (sched w) /\ written tk = image self' /\
              image self' <> None) /\
  (forall tk, In tk (sched w') -> In tk (sched w)).



Definition __enter__ (self : t) : t := self.

Definition __exit__ (self : t) (w : World) : t * World := stop self w.

(** How long the sleeps of [ticks] last, one after the other. *)
Fixpoint duration (ticks : list Tick) : Time :=
  match ticks with
  | [] => 0
  | tk :: rest => wait_interval + Z.of_N (oversleep tk) + duration rest
  end.

Definition no_write (tk : Tick) : bool := is_None (written tk).

End ImageServer.

(** ** Context (context.py) *)

Module Context.

Definition Config := list (string * PyVal).

(** [options.input_source]: the string argparse delivers, later replaced
    by the device number or the absolute path. *)
Inductive Source :=
| SrcNone
| SrcStr (s : string)
| SrcInt (n : Z).

(** The namespace [argParser.parse_args(argv)] returns.  [rpc_port] is
    [Some (-1)] without [--rpc] and [None] for a bare [--rpc]. *)
Record Options := mkOptions {
  config_file : string;
  res_path : string;
  log_file : string;
  debug : bool;
  rpc_port : option Z;
  gui : bool;
  delay : option Z;
  loop_video : bool;
  sync_video : bool;
  video_fps : string;
  camera_width : string;
  camera_height : string;
  input_source : Source
}.

Definition set_delay (d : option Z) (o : Options) : Options :=
  mkOptions (config_file o) (res_path o) (log_file o) (debug o) (rpc_port o)
    (gui o) d (loop_video o) (sync_video o) (video_fps o) (camera_width o)
    (camera_height o) (input_source o).

Definition set_rpc_port (p : option Z) (o : Options) : Options :=
  mkOptions (config_file o) (res_path o) (log_file o) (debug o) p
    (gui o) (delay o) (loop_video o) (sync_video o) (video_fps o)
    (camera_width o) (camera_height o) (input_source o).

Definition set_input_source (src : Source) (o : Options) : Options :=
  mkOptions (config_file o) (res_path o) (log_file o) (debug o) (rpc_port o)
    (gui o) (delay o) (loop_video o) (sync_video o) (video_fps o)
    (camera_width o) (camera_height o) src.

Record t := mk {
  options : Options;
  config : Config;
  resPath : string;
  isDir : bool;
  isImage : bool;
  isVideo : bool;
  isRemote : bool;
  remoteEndpoint : PyVal;
  isRPCEnabled : bool;
  timeStart : Time;
  timeNow : Time;
  isPaused : bool;
  timePaused : Time
}.

(** What opening and parsing a YAML file can come to. *)
Inductive ConfigRead :=
| CfgOpenFails
| CfgParseFails
| CfgLoaded (c : Config).

(** The library and operating-system calls of context.py.  [isImageFile],
    [isVideoFile] and [util_isRemote] are imported from lumos/util.py,
    which is not part of the sources at hand. *)
Record Env := mkEnv {
  open_yaml : string -> ConfigRead;
  load_logging : string -> option PyExc;        (* open, yaml.load and the
                                                   store of the file name;
                                                   None: no exception *)
  dictConfig : string -> string -> option PyExc; (* config file, log file *)
  root_level : string -> Z;                     (* effective level once the
                                                   config file is applied *)
  pformat_logging : string -> string -> string;
  str_exc : PyExc -> string;                    (* str() of an exception *)
  abspath : string -> string;
  join : string -> string -> string;
  path_exists : string -> bool;
  path_isdir : string -> bool;
  isImageFile : string -> bool;
  isVideoFile : string -> bool;
  util_isRemote : string -> bool * PyVal;       (* isRemote(s, parts=True) *)
  int_of_str : string -> option Z;              (* int(s); None: ValueError *)
  pformat : Options -> string;
  pformat_config : Config -> string;
  default_log_file : string;                    (* <package dir>/logs/lumos.log *)
  rpc_default_port : Z;
  rpc_start_server_thread : Z -> option PyExc   (* None: the server runs *)
}.

(** The process: the class attribute [Context.instance] (absent until
    [createInstance] sets it) and the world. *)
Record Proc := mkProc { instance : option t; world : World }.

Definition print (text : string) : M Proc unit :=
  modify (fun p => mkProc (instance p) (emit (EvPrint text) (world p))).

Definition log (e : Event) : M Proc unit :=
  modify (fun p => mkProc (instance p) (emit e (world p))).

Definition default_delay : Z := 10.
Definition DEBUG : Z := 10.
Definition INFO : Z := 20.

Definition getResourcePath (env : Env) (self_resPath subdir filename : string)
  : string :=
  abspath env (join env (join env self_resPath subdir) filename).

Definition setupLogging (env : Env) (self_options : Options)
           (self_resPath : string) : M Proc unit :=
  if String.eqb (log_file self_options) "none" then
    when (debug self_options)
      (print "Context.setupLogging(): No logging requested; adding dummy handler") ;;
    log EvNullHandler
  else
    let logConfigFile := getResourcePath env self_resPath "config" "logging.yaml" in
    when (debug self_options)
      (print ("Context.setupLogging(): Log config file: " ++ logConfigFile)) ;;
    configured <-
      try_except
        (match load_logging env logConfigFile with
         | Some e => raise e
         | None => ret tt
         end ;;
         let filename :=
           if String.eqb (log_file self_options) "auto" then default_log_file env
           else log_file self_options in
         when (debug self_options)
           (print "Context.setupLogging(): Log config:-" ;;
            print (pformat_logging env logConfigFile filename)) ;;
         match dictConfig env logConfigFile filename with
         | Some e => raise e
         | None => log (EvDictConfig filename)
         end ;;
         ret true)
        (fun e =>
           match e with
           | IOError _ =>
               print ("Context.setupLogging(): Error reading log config file: "
                      ++ logConfigFile ++ "; adding dummy handler") ;;
               log EvNullHandler ;;
               ret false                    (* return *)
           | _ =>
               print ("Context.setupLogging(): Logging setup failed; adding dummy handler: "
                      ++ str_exc env e) ;;
               log EvNullHandler ;;
               ret false                    (* return *)
           end) ;;
    if configured then
      let lvl := root_level env logConfigFile in
      if debug self_options && (DEBUG <? lvl) then log (EvSetLevel DEBUG)
      else if negb (debug self_options) && (lvl <=? DEBUG)
           then log (EvSetLevel INFO)
           else ret tt
    else ret tt.

Definition resetTime (self : t) (w : World) : t :=
  let timeStart' := now w in
  mk (options self) (config self) (resPath self) (isDir self) (isImage self)
     (isVideo self) (isRemote self) (remoteEndpoint self) (isRPCEnabled self)
     timeStart' 0 false timeStart'.

Definition update (self : t) (w : World) : t :=
  mk (options self) (config self) (resPath self) (isDir self) (isImage self)
     (isVideo self) (isRemote self) (remoteEndpoint self) (isRPCEnabled self)
     (timeStart self) (now w - timeStart self) (isPaused self)
     (timePaused self).

Definition pause (self : t) (w : World) : t :=
  mk (options self) (config self) (resPath self) (isDir self) (isImage self)
     (isVideo self) (isRemote self) (remoteEndpoint self) (isRPCEnabled self)
     (timeStart self) (timeNow self) true (now w).

Definition resume (self : t) (w : World) : t :=
  mk (options self) (config self) (resPath self) (isDir self) (isImage self)
     (isVideo self) (isRemote self) (remoteEndpoint self) (isRPCEnabled self)
     (timeStart self + (now w - timePaused self)) (timeNow self) false
     (timePaused self).

(** Lines 92-101: the configuration file. *)
Definition read_config (env : Env) (self_options : Options) : M Proc Config :=
  config <-
    try_except
      (match open_yaml env (config_file self_options) with
       | CfgOpenFails => raise (IOError (config_file self_options))
       | CfgParseFails => raise YAMLError
       | CfgLoaded c => ret c
       end)
      (fun e =>
         match e with
         | IOError _ =>
             print ("Context.__init__(): Error reading config file: "
                    ++ config_file self_options) ;;
             raise e
         | _ => raise e
         end) ;;
  when (debug self_options)
    (print ("Context.__init__(): Loaded configuration: "
            ++ pformat_config env config)) ;;
  ret config.

(** Lines 120-143: what the input source is. *)
Record InputSource := mkInputSource {
  src_options : Options;
  src_isDir : bool;
  src_isImage : bool;
  src_isVideo : bool;
  src_isRemote : bool;
  src_remoteEndpoint : PyVal
}.

Definition init_input_source (env : Env) (self_options : Options)
  : M Proc InputSource :=
  match input_source self_options with
  | SrcNone => ret (mkInputSource self_options false false false false PyNone)
  | SrcInt n => ret (mkInputSource self_options false false false false PyNone)
  | SrcStr s =>
      match int_of_str env s with
      | Some n =>
          ret (mkInputSource (set_input_source (SrcInt n) self_options)
                 false false false false PyNone)
      | None =>
          let (self_isRemote, self_remoteEndpoint) := util_isRemote env s in
          if negb self_isRemote then
            let path := abspath env s in
            let self_options := set_input_source (SrcStr path) self_options in
            if path_exists env path then
              if path_isdir env path then
                ret (mkInputSource self_options true false false
                       self_isRemote self_remoteEndpoint)
              else if isImageFile env path then
                ret (mkInputSource self_options false true false
                       self_isRemote self_remoteEndpoint)
              else if isVideoFile env path then
                ret (mkInputSource self_options false false true
                       self_isRemote self_remoteEndpoint)
              else
                log (EvWarn ("Input source type could not be determined: "
                             ++ path)) ;;
                ret (mkInputSource self_options false false false
                       self_isRemote self_remoteEndpoint)
            else
              log (EvWarn ("Input source doesn't exist: " ++ path)) ;;
              ret (mkInputSource self_options false false false
                     self_isRemote self_remoteEndpoint)
          else
            ret (mkInputSource self_options false false false
                   self_isRemote self_remoteEndpoint)
      end
  end.

(** Lines 146-152: the RPC server; the result is [options] and
    [isRPCEnabled]. *)
Definition init_rpc (env : Env) (self_options : Options)
  : M Proc (Options * bool) :=
  if match rpc_port self_options with
     | Some p => negb (p =? -1)
     | None => true
     end
  then
    let port := match rpc_port self_options with
                | None => rpc_default_port env
                | Some p => p
                end in
    let self_options := set_rpc_port (Some port) self_options in
    match rpc_start_server_thread env port with
    | Some e => raise e
    | None => log (EvRpcStart port) ;; ret (self_options, true)
    end
  else ret (self_options, false).

Definition has_instance (p : Proc) : bool :=
  match instance p with Some _ => true | None => false end.

(** [opts] is what [self.argParser.parse_args(argv)] returned. *)
Definition __init__ (env : Env) (opts : Options) : M Proc t :=
  p <- get ;;
  if has_instance p then
    raise (Exception "Context.__init__(): Singleton instance already exists!")
  else
    let self_options := opts in
    when (debug self_options)
      (print ("Context.__init__(): Options: " ++ pformat env self_options)) ;;
    self_config <- read_config env self_options ;;
    let self_resPath := abspath env (res_path self_options) in
    when (debug self_options)
      (print ("Context.__init__(): Resource path: " ++ self_resPath)) ;;
    setupLogging env self_options self_resPath ;;
    let self_options :=
      match delay self_options with
      | None => if gui self_options
                then set_delay (Some default_delay) self_options
                else self_options
      | Some _ => self_options
      end in
    src <- init_input_source env self_options ;;
    r <- init_rpc env (src_options src) ;;
    p <- get ;;
    ret (resetTime
           (mk (fst r) self_config self_resPath (src_isDir src)
              (src_isImage src) (src_isVideo src) (src_isRemote src)
              (src_remoteEndpoint src) (snd r) 0 0 false 0)
           (world p)).

Definition createInstance (env : Env) (opts : Options) : M Proc t :=
  p <- get ;;
  (if negb (has_instance p) then
     self <- __init__ env opts ;;
     modify (fun p => mkProc (Some self) (world p))
   else
     print "Context.createInstance(): [WARNING] Context already created.") ;;
  p <- get ;;
  match instance p with
  | Some self => ret self
  | None => raise (AttributeError "instance")
  end.

Definition getInstance : M Proc t :=
  try_except
    (p <- get ;;
     match instance p with
     | Some self => ret self
     | None => raise (AttributeError "instance")
     end)
    (fun e =>
       match e with
       | AttributeError _ =>
           raise (Exception
                    "Context.getInstance(): Called before context was created.")
       | _ => raise e
       end).

(** The four classification flags of a context. *)
Definition flags (self : t) : list bool :=
  [isDir self; isImage self; isVideo self; isRemote self].

Definition src_flags (src : InputSource) : list bool :=
  [src_isDir src; src_isImage src; src_isVideo src; src_isRemote src].

Definition count_true (l : list bool) : nat :=
  List.length (filter (fun b => b) l).

(** An input source that resolves to nothing the flags name: a device
    number, a path that does not exist, or one that exists and is neither a
    directory nor an image nor a video. *)
Inductive Unresolved (env : Env) : Source -> Prop :=
| UnresolvedDevice s n :
    int_of_str env s = Some n -> Unresolved env (SrcStr s)
| UnresolvedMissing s :
    int_of_str env s = None -> fst (util_isRemote env s) = false ->
    path_exists env (abspath env s) = false ->
    Unresolved env (SrcStr s)
| UnresolvedUnknown s :
    int_of_str env s = None -> fst (util_isRemote env s) = false ->
    path_exists env (abspath env s) = true ->
    path_isdir env (abspath env s) = false ->
    isImageFile env (abspath env s) = false ->
    isVideoFile env (abspath env s) = false ->
    Unresolved env (SrcStr s).

(** The warnings the classification of [src] logs. *)
Definition warnings (env : Env) (src : Source) : list Event :=
  match src with
  | SrcStr s =>
      match int_of_str env s with
      | Some _ => []
      | None =>
          if fst (util_isRemote env s) then []
          else
            let path := abspath env s in
            if path_exists env path then
              if path_isdir env path || isImageFile env path
                 || isVideoFile env path
              then []
              else [EvWarn ("Input source type could not be determined: "
                            ++ path)]
            else [EvWarn ("Input source doesn't exist: " ++ path)]
      end
  | _ => []
  end.

(** At most one flag is up, and none is for an unresolved source. *)
Definition exclusive_flags (env : Env) (src0 : Source) (fl : list bool) : Prop :=
  (count_true fl <= 1)%nat /\
  (Unresolved env src0 -> fl = [false; false; false; false]).

(** A computation that leaves the class attribute [instance] as it is. *)
Definition keeps_instance {A} (c : M Proc A) : Prop :=
  forall p r p', c p = (r, p') -> instance p' = instance p.

(** A computation that only adds to the events of the world. *)
Definition only_emits {A} (c : M Proc A) : Prop :=
  forall p r p', c p = (r, p') ->
    instance p' = instance p /\ now (world p') = now (world p) /\
    exists evs, events (world p') = (events (world p) ++ evs)%list.

(** What a computation can return, and what it can raise. *)
Definition returns {A} (c : M Proc A) (P : A -> Prop) : Prop :=
  forall p a p', c p = (Ok a, p') -> P a.

Definition raises_only {A} (c : M Proc A) (P : PyExc -> Prop) : Prop :=
  forall p e p', c p = (Raise e, p') -> P e.

Definition singleton_error : PyExc :=
  Exception "Context.__init__(): Singleton instance already exists!".

(** The level of the root logger after the events [evs], when it was
    [lvl] before them. *)
Definition level_after (lvl : Z) (evs : list Event) : Z :=
  fold_left (fun l e => match e with EvSetLevel l' => l' | _ => l end) evs lvl.

(** The events a computation adds to those of [p]. *)
Definition emitted {A} (c : M Proc A) (p : Proc) : list Event :=
  skipn (List.length (events (world p))) (events (world (snd (c p)))).

Definition is_minus_one (port : option Z) : bool :=
  match port with Some p => p =? -1 | None => false end.

End Context.

(** ** ImageClient (net.py) *)

Module ImageClient.

Definition image_recv_timeout : Z := 10000.

Record t := mk { read_call : string; port : Z; timeout : Z }.

Definition __init__ (read_call : string) (port timeout : Z) : t :=
  mk read_call port timeout.

(** [isinstance(v, np.ndarray)] *)
Definition is_ndarray (v : PyVal) : bool :=
  match v with PyArray _ => true | _ => false end.

(** [rpc_call] is [rpc.Client.call] of the transport: one remote call and
    its reply. *)
Definition read {S} (rpc_call : string -> M S PyVal) (self : t)
  : M S (bool * PyVal) :=
  image <- rpc_call (read_call self) ;;
  if is_ndarray image then ret (true, image)
  else ret (false, PyNone).

End ImageClient.

(** ** EventLogger (net.py) *)

Module EventLogger.

Definition default_port : Z := 62626.
Definition default_sep : string := String (Ascii.ascii_of_nat 9) "".
Definition timestamp_format : string := "%Y-%m-%d_%H-%M-%S".
Definition newline : string := String (Ascii.ascii_of_nat 10) "".

(** A file object opened for writing and the text written to it. *)
Record File := mkFile { path : string; closed : bool; content : string }.

(** [out] is [None] as long as the attribute was never assigned, and
    [Some None] when it holds Python's [None]. *)
Record t := mk {
  filename : string;
  sep : string;
  port : Z;
  serverStarted : bool;
  initTime : Time;
  out : option (option File)
}.

Record Env := mkEnv {
  can_open : string -> bool;                (* open(name, 'w') works *)
  strftime : string -> Time -> string;      (* of time.localtime(t) *)
  str_time : Time -> string;                (* str() of a clock reading *)
  str_exc : PyExc -> string;                (* str() of an exception *)
  rpc_export : option PyExc;                (* None: no exception *)
  rpc_start_server_thread : Z -> option PyExc
}.

(** The object under construction or in use, and the world. *)
Definition St : Type := t * World.

Definition log_event (e : Event) : M St unit :=
  modify (fun st => (fst st, emit e (snd st))).

Definition set_out (f : option File) : M St unit :=
  modify (fun st =>
            let self := fst st in
            (mk (filename self) (sep self) (port self) (serverStarted self)
                (initTime self) (Some f), snd st)).

Definition set_serverStarted (b : bool) : M St unit :=
  modify (fun st =>
            let self := fst st in
            (mk (filename self) (sep self) (port self) b (initTime self)
                (out self), snd st)).

(** Reading [self.out]. *)
Definition get_out : M St (option File) :=
  st <- get ;;
  match out (fst st) with
  | Some f => ret f
  | None => raise (AttributeError "out")
  end.

(** The body of [__init__] after [self] has its first fields. *)
Definition init_body (env : Env) (do_export start_server : bool) : M St unit :=
  try_except
    (st <- get ;;
     let self := fst st in
     (if can_open env (filename self)
      then set_out (Some (mkFile (filename self) false ""))
      else raise (IOError (filename self))) ;;
     when do_export
       (match rpc_export env with
        | Some e => raise e
        | None => log_event (EvRpcExport "EventLogger")
        end ;;
        when start_server
          (match rpc_start_server_thread env (port self) with
           | Some e => raise e
           | None => log_event (EvRpcStart (port self))
           end ;;
           set_serverStarted true)))
    (fun e =>
       log_event (EvError ("Error opening log file or starting RPC server: "
                           ++ str_exc env e))) ;;
  st <- get ;;
  log_event (EvInfo ("Logger successfully initialized; filename: "
                     ++ filename (fst st))).

Definition __init__ (env : Env) (filename : option string) (sep : string)
           (port : Z) (do_export start_server : bool) (w : World)
  : Result unit * St :=
  let self_initTime := now w in
  let self_filename :=
    match filename with
    | Some f => f
    | None => "logs/events_" ++ strftime env timestamp_format self_initTime
              ++ ".log"
    end in
  init_body env do_export start_server
    (mk self_filename sep port false self_initTime None, w).

(** [print(tag, time.time(), msg, sep=self.sep, file=self.out)] *)
Definition log (env : Env) (tag msg : string) : M St unit :=
  st <- get ;;
  let line := tag ++ sep (fst st) ++ str_time env (now (snd st))
              ++ sep (fst st) ++ msg ++ newline in
  o <- get_out ;;
  match o with
  | None => log_event (EvPrint line)       (* file=None is sys.stdout *)
  | Some f =>
      if closed f then raise (ValueError "I/O operation on closed file")
      else set_out (Some (mkFile (path f) false (content f ++ line)))
  end.

Definition stop (stop_server : bool) : M St unit :=
  o <- get_out ;;
  match o with
  | Some f => set_out (Some (mkFile (path f) true (content f)))
  | None => ret tt
  end ;;
  st <- get ;;
  when (stop_server && serverStarted (fst st)) (log_event EvRpcStop) ;;
  log_event (EvInfo "Logger stopped").

(** The line ends ('\n') in a text. *)
Fixpoint count_lines (s : string) : nat :=
  match s with
  | EmptyString => 0
  | String c s' =>
      ((if Ascii.eqb c (Ascii.ascii_of_nat 10) then 1 else 0)
       + count_lines s')%nat
  end.

Definition with_out (self : t) (f : option File) : t :=
  mk (filename self) (sep self) (port self) (serverStarted self)
     (initTime self) (Some f).

Definition __enter__ : M St unit := ret tt.

Definition __exit__ : M St unit := stop true.

(** The calls [log(tag, msg)] for the [(tag, msg)] of [entries], in order. *)
Fixpoint log_all (env : Env) (entries : list (string * string)) : M St unit :=
  match entries with
  | [] => ret tt
  | (tag, msg) :: rest => log env tag msg ;; log_all env rest
  end.

(** What one call at the clock reading [t] writes for [(tag, msg)]. *)
Definition line_of (env : Env) (sep : string) (t : Time)
           (entry : string * string) : string :=
  fst entry ++ sep ++ str_time env t ++ sep ++ snd entry ++ newline.

Fixpoint lines_of (env : Env) (sep : string) (t : Time)
         (entries : list (string * string)) : string :=
  match entries with
  | [] => ""
  | e :: rest => line_of env sep t e ++ lines_of env sep t rest
  end.

End EventLogger.

(** ** The programs of net.py *)

Module Net.

(** [with obj as x: body] for the classes of this file, whose [__enter__]
    returns the object and whose [__exit__] returns [None]: [exit] runs
    however [body] ends, an exception of [body] is raised again after it,
    and an exception of [exit] takes its place. *)
Definition with_exit {S A} (body : M S A) (exit : M S unit) : M S A :=
  fun s =>
    match body s with
    | (Ok a, s1) =>
        match exit s1 with
        | (Ok _, s2) => (Ok a, s2)
        | (Raise e, s2) => (Raise e, s2)
        end
    | (Raise e, s1) =>
        match exit s1 with
        | (Ok _, s2) => (Raise e, s2)
        | (Raise e', s2) => (Raise e', s2)
        end
    end.

(** What one pass of the loop of [image_server] meets.  The input device
    is lumos/input.py, not part of the sources at hand; the loop uses the
    truth value of [inputDevice.read()] and [inputDevice.image] after it. *)
Inductive Capture :=
| Frame (img : Ndarray)       (* read() is true, the frame is in image *)
| Interrupted                 (* KeyboardInterrupt during the pass *)
| Failed (e : PyExc).         (* any other exception *)

(** Lines 129-135.  A device with no capture left returns false. *)
Fixpoint image_server_loop (captures : list Capture)
         (imageServer : ImageServer.t) : Result unit * ImageServer.t :=
  match captures with
  | [] => (Ok tt, imageServer)
  | Frame img :: rest =>
      image_server_loop rest (ImageServer.write img imageServer)
  | Interrupted :: _ => (Ok tt, imageServer)
  | Failed e :: _ => (Raise e, imageServer)
  end.

(** Lines 128-135: the server, from its construction to its [__exit__]. *)
Definition serve (captures : list Capture) (port : Z) (w : World)
  : Result unit * (ImageServer.t * World) :=
  with_exit
    (fun st =>
       let (r, imageServer) :=
         image_server_loop captures (ImageServer.__enter__ (fst st)) in
       (r, (imageServer, snd st)))
    (fun st => (Ok tt, ImageServer.__exit__ (fst st) (snd st)))
    (ImageServer.__init__ port true w).

(** [InputDevice_new ctx] is the device [InputDevice()] builds from the
    options of the context. *)
Definition image_server (env : Context.Env) (opts : Context.Options)
           (InputDevice_new : Context.t -> list Capture)
           (inputDevice : option (list Capture)) (port : Z)
  : M Context.Proc unit :=
  captures <-
    match inputDevice with
    | None =>
        ctx <- Context.createInstance env opts ;;
        ret (InputDevice_new ctx)
    | Some d => ret d
    end ;;
  fun p =>
    let (r, st) := serve captures port (Context.world p) in
    (r, Context.mkProc (Context.instance p) (snd st)).

(** What one [imageClient.read()] and one [cv2.waitKey(delay)] of the loop
    of [image_client] meet. *)
Inductive Reply :=
| Answer (v : PyVal)
| CallInterrupted.            (* KeyboardInterrupt during the call *)

Inductive KeyPress :=
| Key (k : Z)
| WaitInterrupted.            (* KeyboardInterrupt during the wait *)

(** [key & 0x00007f == 0x1b] *)
Definition is_escape (key : Z) : bool := Z.land key 0x7f =? 0x1b.

(** What [imageClient.read()] returns when the remote call answers [v]. *)
Definition read_reply (imageClient : ImageClient.t) (v : PyVal) : bool * PyVal :=
  match ImageClient.read (fun _ => ret v) imageClient tt with
  | (Ok r, _) => r
  | (Raise _, _) => (false, PyNone)
  end.

(** Lines 145-158.  The result is what is left of the replies and of the
    keys, and the images shown.  A call with no reply left times out, a
    wait with no key left returns -1. *)
Fixpoint image_client_loop (imageClient : ImageClient.t) (gui : bool)
         (replies : list Reply) (keys : list KeyPress) (shown : list PyVal)
  : list Reply * list KeyPress * list PyVal :=
  match replies with
  | [] => ([], keys, shown)
  | CallInterrupted :: rest => (rest, keys, shown)
  | Answer v :: rest =>
      let (isOkay, image) := read_reply imageClient v in
      if negb isOkay then (rest, keys, shown)
      else if gui then
        let shown := (shown ++ [image])%list in
        match keys with
        | WaitInterrupted :: ks => (rest, ks, shown)
        | Key key :: ks =>
            if is_escape key then (rest, ks, shown)
            else image_client_loop imageClient gui rest ks shown
        | [] =>
            if is_escape (-1) then (rest, [], shown)
            else image_client_loop imageClient gui rest [] shown
        end
      else image_client_loop imageClient gui rest keys shown
  end.

(** Lines 166-170: [n] sleeps of a minute come to their end before the
    KeyboardInterrupt that breaks the loop. *)
Fixpoint event_logger_loop (n : nat) (w : World) : World :=
  match n with
  | O => w
  | S n' =>
      event_logger_loop n'
        {| now := now w + 60000; sched := sched w; slept := S (slept w);
           events := events w |}
  end.

(** Lines 163-170.  The result has the logger as [__exit__] left it. *)
Definition event_logger (cenv : Context.Env) (opts : Context.Options)
           (lenv : EventLogger.Env) (n : nat) (p : Context.Proc)
  : Result unit * Context.Proc * option EventLogger.t :=
  match Context.createInstance cenv opts p with
  | (Raise e, p1) => (Raise e, p1, None)
  | (Ok _, p1) =>
      match EventLogger.__init__ lenv None EventLogger.default_sep
              EventLogger.default_port true true (Context.world p1) with
      | (Raise e, (self, w)) =>
          (Raise e, Context.mkProc (Context.instance p1) w, Some self)
      | (Ok _, st) =>
          match with_exit
                  (EventLogger.__enter__ ;;
                   modify (fun st => (fst st, event_logger_loop n (snd st))))
                  EventLogger.__exit__ st with
          | (r, (self, w)) =>
              (r, Context.mkProc (Context.instance p1) w, Some self)
          end
      end
  end.

End Net.

(** ** Concrete inputs *)

Module Sample.

Definition frame : Ndarray := mkNdarray [2%nat; 2%nat] [0; 64; 128; 255].

Definition quiet (t0 : Time) : World :=
  {| now := t0; sched := []; slept := 0; events := [] |}.

(** A world in which the owner writes [frame] during the third sleep. *)
Definition busy : World :=
  {| now := 5000;
     sched := [mkTick 0 None; mkTick 7 None; mkTick 3 (Some frame)];
     slept := 0; events := [] |}.

Definition server0 : ImageServer.t := fst (ImageServer.__init__ 61616 true (quiet 0)).

(** A small installation: one configuration file, a frames directory, a
    picture, a film and a file of notes. *)
Definition env : Context.Env :=
  {| Context.open_yaml := fun f =>
       if String.eqb f "config.yaml"
       then Context.CfgLoaded [("name", PyStr "lumos")]
       else Context.CfgOpenFails;
     Context.load_logging := fun _ => None;
     Context.dictConfig := fun _ _ => None;
     Context.root_level := fun _ => 30;
     Context.pformat_logging := fun _ _ => "{...}";
     Context.str_exc := fun _ => "error";
     Context.abspath := fun s =>
       if String.prefix "/" s then s else "/home/lumos/" ++ s;
     Context.join := fun a b => a ++ "/" ++ b;
     Context.path_exists := fun s =>
       String.eqb s "/data/frames" || String.eqb s "/data/a.png"
       || String.eqb s "/data/b.avi" || String.eqb s "/data/notes.txt";
     Context.path_isdir := fun s => String.eqb s "/data/frames";
     Context.isImageFile := fun s => String.eqb s "/data/a.png";
     Context.isVideoFile := fun s => String.eqb s "/data/b.avi";
     Context.util_isRemote := fun s =>
       if String.prefix "tcp://" s then (true, PyStr s) else (false, PyNone);
     Context.int_of_str := fun s =>
       if String.eqb s "0" then Some 0
       else if String.eqb s "1" then Some 1 else None;
     Context.pformat := fun _ => "Namespace(...)";
     Context.pformat_config := fun _ => "{...}";
     Context.default_log_file := "/home/lumos/logs/lumos.log";
     Context.rpc_default_port := 60606;
     Context.rpc_start_server_thread := fun _ => None |}.

Definition opts_for (config_file : string) (src : string) : Context.Options :=
  Context.mkOptions config_file "res" "auto" false (Some (-1)) true None
    false false "auto" "auto" "auto" (Context.SrcStr src).

Definition opts : Context.Options := opts_for "config.yaml" "0".

(** A process in which no context was created yet. *)
Definition proc0 : Context.Proc := Context.mkProc None (quiet 0).

Definition at_time (t0 : Time) : World := quiet t0.

(** The same installation with no file on it. *)
Definition env_offline : Context.Env :=
  {| Context.open_yaml := Context.open_yaml env;
     Context.load_logging := Context.load_logging env;
     Context.dictConfig := Context.dictConfig env;
     Context.root_level := Context.root_level env;
     Context.pformat_logging := Context.pformat_logging env;
     Context.str_exc := Context.str_exc env;
     Context.abspath := fun s => "/nowhere/" ++ s;
     Context.join := Context.join env;
     Context.path_exists := fun _ => false;
     Context.path_isdir := fun _ => false;
     Context.isImageFile := fun _ => false;
     Context.isVideoFile := fun _ => false;
     Context.util_isRemote := Context.util_isRemote env;
     Context.int_of_str := Context.int_of_str env;
     Context.pformat := Context.pformat env;
     Context.pformat_config := Context.pformat_config env;
     Context.default_log_file := Context.default_log_file env;
     Context.rpc_default_port := Context.rpc_default_port env;
     Context.rpc_start_server_thread := Context.rpc_start_server_thread env |}.

(** [--rpc] with no port, and a picture as input. *)
Definition opts_rpc : Context.Options :=
  Context.set_rpc_port None (opts_for "config.yaml" "/data/a.png").

(** A transport whose image server answers every [read] with [reply]. *)
Definition served (reply : PyVal) (name : string) : M World PyVal :=
  if String.eqb name "ImageServer.read" then ret reply
  else raise (Exception ("no such call: " ++ name)).

Definition client : ImageClient.t :=
  ImageClient.__init__ ImageServer.default_read_call
    ImageServer.default_port ImageClient.image_recv_timeout.

(** A machine on which only /var/log/lumos can be written to. *)
Definition logenv : EventLogger.Env :=
  {| EventLogger.can_open := String.prefix "/var/log/lumos/";
     EventLogger.strftime := fun _ _ => "2015-03-01_12-00-00";
     EventLogger.str_time := fun t =>
       if t =? 1425211200000 then "1425211200.0" else "0.0";
     EventLogger.str_exc := fun e =>
       match e with
       | IOError p => "[Errno 2] No such file or directory: '" ++ p ++ "'"
       | Exception msg => msg
       | _ => "error"
       end;
     EventLogger.rpc_export := None;
     EventLogger.rpc_start_server_thread := fun _ => None |}.

(** A machine on which every file can be written to. *)
Definition logenv_open : EventLogger.Env :=
  {| EventLogger.can_open := fun _ => true;
     EventLogger.strftime := EventLogger.strftime logenv;
     EventLogger.str_time := EventLogger.str_time logenv;
     EventLogger.str_exc := EventLogger.str_exc logenv;
     EventLogger.rpc_export := None;
     EventLogger.rpc_start_server_thread := fun _ => None |}.

End Sample.

(** * Properties *)

(** ** ImageServer *)

Section ImageServerFacts.

Import ImageServer.

Lemma sleep_spec d self w :
  let self' := fst (sleep d self w) in
  let w' := snd (sleep d self w) in
  now w + d <= now w' /\ slept w' = S (slept w) /\ events w' = events w /\
  isFresh self' = isFresh self /\
  (image self' = image self \/
   exists tk, In tk (sched w) /\ written tk = image self' /\
              image self' <> None) /\
  (forall tk, In tk (sched w') -> In tk (sched w)).
Proof.
  unfold sleep. destruct (sched w) as [|tk rest] eqn:E; cbn.
  - repeat split; try lia. now left.
  - repeat split; try lia.
    + now destruct (written tk).
    + destruct (written tk) as [img|] eqn:W; cbn; [right | now left].
      exists tk. rewrite W. repeat split; [now left | discriminate].
    + intros; now right.
Qed.

Lemma wait_post_refl ws self w :
  is_None (image self) && (now w - ws <? max_wait_duration) = false ->
  wait_post ws self w self w.
Proof.
  intros C. unfold wait_post.
  split; [|split; [|split; [|split; [|split]]]]; auto.
  - apply andb_false_iff in C as [C|C].
    + left. destruct (image self); [discriminate|discriminate C].
    + right. apply Z.ltb_ge in C. lia.
  - rewrite Nat.sub_diag. unfold wait_interval. lia.
Qed.

Lemma wait_post_step ws self w self1 w1 self' w' :
  is_None (image self) = true ->
  sleep wait_interval self w = (self1, w1) ->
  wait_post ws self1 w1 self' w' ->
  wait_post ws self w self' w' /\ (S (slept w) <= slept w')%nat.
Proof.
  intros C E P.
  pose proof (sleep_spec wait_interval self w) as S1. cbn zeta in S1.
  rewrite E in S1. cbn [fst snd] in S1.
  destruct S1 as (Hnow & Hslept & Hev & Hfresh & Himg & Hsched).
  destruct P as (Pexit & Pev & Psl & Pnow & Pimg & Psched).
  unfold wait_post.
  split; [|lia].
  split; [|split; [|split; [|split; [|split]]]].
  - exact Pexit.
  - congruence.
  - lia.
  - unfold wait_interval in *.
    replace (Z.of_nat (slept w' - slept w))
      with (1 + Z.of_nat (slept w' - slept w1)) by lia. lia.
  - destruct Pimg as [Pimg | (tk & I & Wr & NN)].
    + destruct Himg as [Himg | (tk & I & Wr & NN)].
      * left. congruence.
      * right. exists tk. rewrite Pimg. auto.
    + right. exists tk. auto.
  - auto.
Qed.

Lemma wait_loop_spec fuel : forall ws self w,
  max_wait_duration - (now w - ws) <= Z.of_nat fuel * wait_interval ->
  exists self' w',
    wait_loop fuel ws self w = Some (self', w') /\
    wait_post ws self w self' w' /\
    (slept w' <= slept w + fuel)%nat /\
    (is_None (image self) && (now w - ws <? max_wait_duration) = true ->
     (S (slept w) <= slept w')%nat) /\
    (is_None (image self) && (now w - ws <? max_wait_duration) = false ->
     self' = self /\ w' = w).
Proof.
  induction fuel as [|fuel IH]; intros ws self w Hfuel.
  - assert (C : is_None (image self) && (now w - ws <? max_wait_duration) = false).
    { apply andb_false_iff; right. apply Z.ltb_ge.
      change (Z.of_nat 0) with 0 in Hfuel. lia. }
    exists self, w. cbn. rewrite C.
    split; [reflexivity|]. split; [now apply wait_post_refl|].
    split; [lia|]. split; [discriminate|auto].
  - cbn [wait_loop].
    destruct (is_None (image self) && (now w - ws <? max_wait_duration)) eqn:C.
    + destruct (sleep wait_interval self w) as [self1 w1] eqn:E.
      pose proof (sleep_spec wait_interval self w) as S1. cbn zeta in S1.
      rewrite E in S1. cbn [fst snd] in S1.
      destruct (IH ws self1 w1) as (self' & w' & -> & P & Hub & _ & _).
      { unfold wait_interval in *. lia. }
      apply andb_true_iff in C as [C _].
      destruct (wait_post_step _ _ _ _ _ _ _ C E P) as [P' Hs].
      exists self', w'. split; [reflexivity|]. split; [exact P'|].
      split; [lia|]. split; [auto|discriminate].
    + exists self, w.
      split; [reflexivity|]. split; [now apply wait_post_refl|].
      split; [lia|]. split; [discriminate|auto].
Qed.

(** [read] always returns: the loop needs no more than [max_polls] sleeps. *)
Lemma read_returns self w :
  exists img self' w',
    read self w = Some (img, self', w') /\
    img = image self' /\ isFresh self' = false /\
    (slept w' <= slept w + max_polls)%nat /\
    (isFresh self = true -> wait_post (now w) self w self' w') /\
    (isFresh self = true -> image self = None -> (S (slept w) <= slept w')%nat) /\
    (isFresh self = false -> self' = self /\ w' = w).
Proof.
  unfold read. destruct (isFresh self) eqn:F.
  - destruct (wait_loop_spec max_polls (now w) self w)
      as (self' & w' & -> & P & Hub & Hin & _).
    { vm_compute Z.of_nat. unfold max_wait_duration, wait_interval. lia. }
    exists (image self'), {| image := image self'; isFresh := false |}, w'.
    split; [reflexivity|]. split; [reflexivity|]. split; [reflexivity|].
    split; [exact Hub|]. split; [intros _; exact P|].
    split; [|discriminate].
    intros _ Himg. apply Hin. rewrite Himg. cbn.
    apply Z.ltb_lt. unfold max_wait_duration. lia.
  - exists (image self), self, w.
    split; [reflexivity|]. split; [reflexivity|]. split; [exact F|].
    split; [lia|]. split; [discriminate|]. split; [discriminate|auto].
Qed.






(** C9: [stop] puts [None] in [image] and raises [isFresh] again, so the
    next [read] goes through the wait loop once more: it sleeps at least
    once and at most [max_polls] times, and what it returns is a frame
    written while it slept or, after no less than [max_wait_duration],
    [None]. *)
Theorem ImageServer_stop_rearms_wait self w :
  let self1 := fst (stop self w) in
  let w1 := snd (stop self w) in
  image self1 = None /\ isFresh self1 = true /\
  events w1 = (events w ++ [EvRpcStop])%list /\
  exists img self2 w2,
    read self1 w1 = Some (img, self2, w2) /\
    (S (slept w1) <= slept w2 <= slept w1 + max_polls)%nat /\
    now w1 + wait_interval <= now w2 /\
    (img = None -> max_wait_duration <= now w2 - now w1) /\
    (forall a, img = Some a ->
               exists tk, In tk (sched w) /\ written tk = Some a) /\
    isFresh self2 = false.
Proof.
  change (fst (stop self w)) with {| image := None; isFresh := true |}.
  change (snd (stop self w)) with (emit EvRpcStop w).
  intros self1 w1.
  split; [reflexivity|]. split; [reflexivity|]. split; [reflexivity|].
  destruct (read_returns self1 w1)
    as (img & self2 & w2 & R & Himg & F & Hub & P & Hin & _).
  specialize (P eq_refl). specialize (Hin eq_refl eq_refl).
  destruct P as (Pexit & Pev & Psl & Pnow & Pimg & Psched).
  exists img, self2, w2.
  split; [exact R|]. split; [lia|].
  split.
  { unfold wait_interval in *.
    assert (1 <= Z.of_nat (slept w2 - slept w1)) by lia. lia. }
  split.
  { intros E. destruct Pexit as [Pexit|Pexit]; [congruence | lia]. }
  split; [|exact F].
  intros a E. destruct Pimg as [Pimg | (tk & I & Wr & _)].
  - cbn in Pimg. congruence.
  - exists tk. split; [exact I | congruence].
Qed.

End ImageServerFacts.

(** ** Context: time control *)

Section ContextTime.

Import Context.

Lemma update_timeNow self w : timeNow (update self w) = now w - timeStart self.
Proof. reflexivity. Qed.

Lemma update_keeps_pause self w :
  isPaused (update self w) = isPaused self /\
  timeStart (update self w) = timeStart self /\
  timePaused (update self w) = timePaused self.
Proof. now unfold update. Qed.

(** C2, as the code has it: [update] has no guard on [isPaused].  It sets
    [timeNow] to the clock reading less [timeStart] in the paused state as
    in any other, so a paused context whose [timeNow] was computed at the
    reading of [w0] has it moved on by the wall-clock time gone by since;
    it is the same after the call only if the clock has not moved.  The
    pause is taken out of the elapsed time by [resume] alone. *)
Theorem Context_update_ignores_pause self w0 w :
  isPaused self = true ->
  timeNow self = now w0 - timeStart self ->
  timeNow (update self w) = timeNow self + (now w - now w0) /\
  (timeNow (update self w) = timeNow self <-> now w = now w0) /\
  isPaused (update self w) = true.
Proof.
  intros P T. rewrite update_timeNow, T.
  split; [lia|]. split; [lia|]. exact P.
Qed.

Lemma Context_update_ignores_pause_witness :
  exists c p,
    createInstance Sample.env Sample.opts Sample.proc0 = (Ok c, p) /\
    let paused := pause (update c (Sample.at_time 1000)) (Sample.at_time 1000) in
    timeNow (update paused (Sample.at_time 3000)) = timeNow paused + 2000.
Proof.
  eexists. eexists. split; [vm_compute; reflexivity|].
  cbv zeta.
  refine (proj1 (Context_update_ignores_pause _ (Sample.at_time 1000)
                   (Sample.at_time 3000) _ _)); reflexivity.
Defined.

(** C2, as the spec words it, fails: a context paused at second 1 with one
    second of elapsed time has three seconds of it after an [update] at
    second 3. *)
Lemma Context_update_advances_while_paused :
  exists c p,
    createInstance Sample.env Sample.opts Sample.proc0 = (Ok c, p) /\
    let paused := pause (update c (Sample.at_time 1000)) (Sample.at_time 1000) in
    isPaused paused = true /\
    timeNow paused = 1000 /\
    timeNow (update paused (Sample.at_time 3000)) = 3000 /\
    timeNow (update paused (Sample.at_time 3000)) <> timeNow paused.
Proof.
  eexists. eexists. split; [vm_compute; reflexivity|].
  cbv zeta. repeat split. discriminate.
Qed.

(** C3: [pause] at the reading of [w1] and [resume] at that of [w2] move
    [timeStart] forward by the time in between and clear [isPaused].  The
    elapsed time of an [update] at [w3] after the pair is that of the
    [update] at [w0] before it plus the two gaps between a measurement and
    the call next to it; the paused time [now w2 - now w1] is not in it.
    Taken at once ([w0] with [pause], [w3] with [resume]) the two elapsed
    times are equal. *)
Theorem Context_pause_resume_not_counted self w0 w1 w2 w3 :
  let before := update self w0 in
  let resumed := resume (pause before w1) w2 in
  let after := update resumed w3 in
  isPaused (pause before w1) = true /\
  timeStart resumed = timeStart self + (now w2 - now w1) /\
  isPaused resumed = false /\
  timeNow after = timeNow before + (now w1 - now w0) + (now w3 - now w2) /\
  timeNow (update (resume (pause before w0) w2) w2) = timeNow before.
Proof.
  cbn. repeat split; lia.
Qed.

End ContextTime.

(** ** Context: construction *)

Section ContextConstruction.

Import Context.

Variable env : Env.

(** *** Computations that only add events *)

Lemma only_emits_ret {A} (a : A) : only_emits (ret a).
Proof.
  intros p r p' E. injection E as <- <-.
  repeat split. exists []. now rewrite app_nil_r.
Qed.

Lemma only_emits_raise {A} e : only_emits (@raise Proc A e).
Proof.
  intros p r p' E. injection E as <- <-.
  repeat split. exists []. now rewrite app_nil_r.
Qed.

Lemma only_emits_get : only_emits (@get Proc).
Proof.
  intros p r p' E. injection E as <- <-.
  repeat split. exists []. now rewrite app_nil_r.
Qed.

Lemma only_emits_log e : only_emits (log e).
Proof.
  intros p r p' E. injection E as <- <-. cbn.
  repeat split. now exists [e].
Qed.

Lemma only_emits_print text : only_emits (print text).
Proof. apply (only_emits_log (EvPrint text)). Qed.

Lemma only_emits_bind {A B} (c : M Proc A) (k : A -> M Proc B) :
  only_emits c -> (forall a, only_emits (k a)) -> only_emits (bind c k).
Proof.
  intros Hc Hk p r p' E. unfold bind in E.
  destruct (c p) as [[a|e] p1] eqn:Ec.
  - destruct (Hc _ _ _ Ec) as (I1 & N1 & evs1 & E1).
    destruct (Hk a _ _ _ E) as (I2 & N2 & evs2 & E2).
    repeat split; try congruence.
    exists (evs1 ++ evs2)%list. now rewrite E2, E1, app_assoc.
  - injection E as <- <-. exact (Hc _ _ _ Ec).
Qed.

Lemma only_emits_try {A} (c : M Proc A) h :
  only_emits c -> (forall e, only_emits (h e)) -> only_emits (try_except c h).
Proof.
  intros Hc Hh p r p' E. unfold try_except in E.
  destruct (c p) as [[a|e] p1] eqn:Ec.
  - injection E as <- <-. exact (Hc _ _ _ Ec).
  - destruct (Hc _ _ _ Ec) as (I1 & N1 & evs1 & E1).
    destruct (Hh e _ _ _ E) as (I2 & N2 & evs2 & E2).
    repeat split; try congruence.
    exists (evs1 ++ evs2)%list. now rewrite E2, E1, app_assoc.
Qed.

Lemma only_emits_when b c : only_emits c -> only_emits (when b c).
Proof. destruct b; [trivial | intros _; apply only_emits_ret]. Qed.

Ltac emits :=
  repeat first
    [ apply only_emits_ret | apply only_emits_raise | apply only_emits_get
    | apply only_emits_log | apply only_emits_print
    | apply only_emits_when
    | apply only_emits_bind; [|intros ?]
    | apply only_emits_try; [|intros ?]
    | match goal with
      | |- only_emits (if ?b then _ else _) => destruct b
      | |- only_emits (match ?x with _ => _ end) => destruct x
      | |- only_emits (let (_, _) := ?x in _) => destruct x
      end ].

Lemma setupLogging_only_emits o rp : only_emits (setupLogging env o rp).
Proof. unfold setupLogging. emits. Qed.

Lemma read_config_only_emits o : only_emits (read_config env o).
Proof. unfold read_config. emits. Qed.

Lemma init_input_source_only_emits o : only_emits (init_input_source env o).
Proof. unfold init_input_source. emits. Qed.

Lemma init_rpc_only_emits o : only_emits (init_rpc env o).
Proof. unfold init_rpc. emits. Qed.

(** The constructor never assigns the class attribute: only
    [createInstance] does. *)
Lemma init_only_emits opts : only_emits (__init__ env opts).
Proof.
  unfold __init__.
  apply only_emits_bind; [apply only_emits_get | intros p0].
  destruct (has_instance p0); [apply only_emits_raise|].
  apply only_emits_bind; [emits | intros _].
  apply only_emits_bind; [apply read_config_only_emits | intros cfg].
  apply only_emits_bind; [emits | intros _].
  apply only_emits_bind; [apply setupLogging_only_emits | intros _].
  apply only_emits_bind; [apply init_input_source_only_emits | intros src].
  apply only_emits_bind; [apply init_rpc_only_emits | intros r].
  emits.
Qed.

(** *** With a registered instance *)

Lemma init_with_instance opts p c :
  instance p = Some c -> __init__ env opts p = (Raise singleton_error, p).
Proof.
  intros I. unfold __init__, bind, get, has_instance. now rewrite I.
Qed.

Lemma createInstance_with_instance opts p c :
  instance p = Some c ->
  createInstance env opts p =
    (Ok c,
     mkProc (Some c)
       (emit (EvPrint "Context.createInstance(): [WARNING] Context already created.")
          (world p))).
Proof.
  intros I. unfold createInstance, bind, get, has_instance.
  rewrite I. cbn. now rewrite I.
Qed.

(** [createInstance] registers what it builds. *)
Lemma createInstance_registers opts p c p' :
  instance p = None -> __init__ env opts p = (Ok c, p') ->
  createInstance env opts p = (Ok c, mkProc (Some c) (world p')).
Proof.
  intros I E. unfold createInstance.
  unfold bind at 1. unfold get at 1. unfold has_instance. rewrite I.
  cbn [negb]. unfold bind. rewrite E. reflexivity.
Qed.

(** *** What is returned and what is raised *)

Lemma returns_ret {A} (a : A) (P : A -> Prop) : P a -> returns (ret a) P.
Proof. intros H p a' p' E. now injection E as <- <-. Qed.

Lemma returns_bind {A B} (c : M Proc A) (k : A -> M Proc B) Q (P : B -> Prop) :
  returns c Q -> (forall a, Q a -> returns (k a) P) -> returns (bind c k) P.
Proof.
  intros Hc Hk p b p' E. unfold bind in E.
  destruct (c p) as [[a|e] p1] eqn:Ec; [|discriminate E].
  exact (Hk a (Hc _ _ _ Ec) _ _ _ E).
Qed.

Lemma returns_anything {A} (c : M Proc A) : returns c (fun _ => True).
Proof. now intros p a p' _. Qed.

Lemma raises_ret {A} (a : A) P : raises_only (@ret Proc A a) P.
Proof. intros p e p' E. discriminate E. Qed.

Lemma raises_raise {A} e (P : PyExc -> Prop) :
  P e -> raises_only (@raise Proc A e) P.
Proof. intros H p e' p' E. now injection E as <- <-. Qed.

Lemma raises_get P : raises_only (@get Proc) P.
Proof. intros p e p' E. discriminate E. Qed.

Lemma raises_log ev P : raises_only (log ev) P.
Proof. intros p e p' E. discriminate E. Qed.

Lemma raises_print text P : raises_only (print text) P.
Proof. intros p e p' E. discriminate E. Qed.

Lemma raises_when b c P : raises_only c P -> raises_only (when b c) P.
Proof. destruct b; [trivial | intros _; apply raises_ret]. Qed.

Lemma raises_bind {A B} (c : M Proc A) (k : A -> M Proc B) P :
  raises_only c P -> (forall a, raises_only (k a) P) ->
  raises_only (bind c k) P.
Proof.
  intros Hc Hk p e p' E. unfold bind in E.
  destruct (c p) as [[a|e1] p1] eqn:Ec.
  - exact (Hk a _ _ _ E).
  - injection E as <- <-. exact (Hc _ _ _ Ec).
Qed.

Lemma raises_try {A} (c : M Proc A) h Q P :
  raises_only c Q -> (forall e, Q e -> raises_only (h e) P) ->
  raises_only (try_except c h) P.
Proof.
  intros Hc Hh p e p' E. unfold try_except in E.
  destruct (c p) as [[a|e1] p1] eqn:Ec; [discriminate E|].
  exact (Hh e1 (Hc _ _ _ Ec) _ _ _ E).
Qed.

Lemma raises_anything {A} (c : M Proc A) : raises_only c (fun _ => True).
Proof. now intros p e p' _. Qed.

Ltac quiet :=
  repeat first
    [ apply raises_ret | apply raises_get | apply raises_log
    | apply raises_print | apply raises_when
    | apply raises_bind; [|intros ?]
    | eapply raises_try; [apply raises_anything | intros ? _]
    | match goal with
      | |- raises_only (if ?b then _ else _) _ => destruct b
      | |- raises_only (match ?x with _ => _ end) _ => destruct x
      | |- raises_only (let (_, _) := ?x in _) _ => destruct x
      end ].

Lemma setupLogging_raises o rp P : raises_only (setupLogging env o rp) P.
Proof. unfold setupLogging. quiet. Qed.

Lemma init_input_source_raises o P : raises_only (init_input_source env o) P.
Proof. unfold init_input_source. quiet. Qed.

Lemma read_config_raises o :
  raises_only (read_config env o)
    (fun e => e = IOError (config_file o) \/ e = YAMLError).
Proof.
  unfold read_config. apply raises_bind; [|intros cfg; quiet].
  apply raises_try with
    (Q := fun e => e = IOError (config_file o) \/ e = YAMLError).
  - destruct (open_yaml env (config_file o)).
    + apply raises_raise. now left.
    + apply raises_raise. now right.
    + apply raises_ret.
  - intros e [-> | ->].
    + apply raises_bind; [apply raises_print | intros _].
      apply raises_raise. now left.
    + apply raises_raise. now right.
Qed.

Lemma init_rpc_raises o :
  raises_only (init_rpc env o)
    (fun e => exists port, rpc_start_server_thread env port = Some e).
Proof.
  unfold init_rpc.
  destruct (match rpc_port o with Some p => negb (p =? -1) | None => true end);
    [|apply raises_ret].
  set (port := match rpc_port o with
               | Some p => p
               | None => rpc_default_port env
               end).
  destruct (rpc_start_server_thread env port) eqn:E.
  - apply raises_raise. now exists port.
  - quiet.
Qed.

(** The classification never raises, keeps [instance] and logs exactly
    [warnings]. *)
Lemma init_input_source_runs o p :
  exists src p1,
    init_input_source env o p = (Ok src, p1) /\
    instance p1 = instance p /\
    events (world p1) = (events (world p) ++ warnings env (input_source o))%list.
Proof.
  unfold init_input_source, warnings.
  destruct (input_source o) as [|s|n];
    try (eexists; eexists; split; [reflexivity|]; split; [reflexivity|];
         now rewrite app_nil_r).
  destruct (int_of_str env s);
    try (eexists; eexists; split; [reflexivity|]; split; [reflexivity|];
         now rewrite app_nil_r).
  destruct (util_isRemote env s) as [r ep]. cbn [fst].
  destruct r; cbn [negb];
    try (eexists; eexists; split; [reflexivity|]; split; [reflexivity|];
         now rewrite app_nil_r).
  destruct (path_exists env (abspath env s));
    [|eexists; eexists; split; [reflexivity|]; split; reflexivity].
  destruct (path_isdir env (abspath env s)); cbn [orb];
    try (eexists; eexists; split; [reflexivity|]; split; [reflexivity|];
         now rewrite app_nil_r).
  destruct (isImageFile env (abspath env s)); cbn [orb];
    try (eexists; eexists; split; [reflexivity|]; split; [reflexivity|];
         now rewrite app_nil_r).
  destruct (isVideoFile env (abspath env s)); cbn [orb];
    try (eexists; eexists; split; [reflexivity|]; split; [reflexivity|];
         now rewrite app_nil_r).
  eexists; eexists; split; [reflexivity|]; split; reflexivity.
Qed.

Lemma init_input_source_flags o :
  returns (init_input_source env o)
    (fun src => exclusive_flags env (input_source o) (src_flags src)).
Proof.
  intros p src p' E. unfold init_input_source in E.
  destruct (input_source o) as [|s|n] eqn:Es.
  - injection E as <- <-. split; [cbn; lia | reflexivity].
  - destruct (int_of_str env s) eqn:Ei.
    { injection E as <- <-. split; [cbn; lia | reflexivity]. }
    destruct (util_isRemote env s) as [r ep] eqn:Er.
    destruct r; cbn [negb] in E.
    { injection E as <- <-. split; [cbn; lia|].
      intros U. inversion U; subst; try congruence;
        match goal with
        | H : fst _ = false |- _ => rewrite Er in H; discriminate H
        end. }
    destruct (path_exists env (abspath env s)) eqn:Ex.
    2:{ cbn in E. injection E as <- <-. split; [cbn; lia | reflexivity]. }
    destruct (path_isdir env (abspath env s)) eqn:Ed.
    { injection E as <- <-. split; [cbn; lia|].
      intros U. inversion U; subst; congruence. }
    destruct (isImageFile env (abspath env s)) eqn:Eim.
    { injection E as <- <-. split; [cbn; lia|].
      intros U. inversion U; subst; congruence. }
    destruct (isVideoFile env (abspath env s)) eqn:Ev.
    { injection E as <- <-. split; [cbn; lia|].
      intros U. inversion U; subst; congruence. }
    cbn in E. injection E as <- <-. split; [cbn; lia | reflexivity].
  - injection E as <- <-. split; [cbn; lia | reflexivity].
Qed.

(** What the constructor returns carries the flags of the classification
    of the input source it was given. *)
Lemma init_flags opts :
  returns (__init__ env opts)
    (fun c => exclusive_flags env (input_source opts) (flags c)).
Proof.
  unfold __init__.
  eapply returns_bind; [apply returns_anything | intros p0 _].
  destruct (has_instance p0); [intros p a p' E; discriminate E|].
  eapply returns_bind; [apply returns_anything | intros _ _].
  eapply returns_bind; [apply returns_anything | intros cfg _].
  eapply returns_bind; [apply returns_anything | intros _ _].
  eapply returns_bind; [apply returns_anything | intros _ _].
  eapply returns_bind; [apply init_input_source_flags | intros src Hsrc].
  eapply returns_bind; [apply returns_anything | intros r _].
  eapply returns_bind; [apply returns_anything | intros p1 _].
  apply returns_ret.
  change (flags (resetTime _ _)) with (src_flags src).
  now destruct (delay opts), (gui opts).
Qed.

Lemma init_raises opts :
  raises_only (__init__ env opts)
    (fun e => e = singleton_error \/ e = IOError (config_file opts) \/
              e = YAMLError \/
              exists port, rpc_start_server_thread env port = Some e).
Proof.
  unfold __init__.
  apply raises_bind; [apply raises_get | intros p0].
  destruct (has_instance p0); [apply raises_raise; now left|].
  apply raises_bind; [quiet | intros _].
  apply raises_bind.
  { intros p e p' E. right.
    destruct (read_config_raises opts _ _ _ E); auto. }
  intros cfg.
  apply raises_bind; [quiet | intros _].
  apply raises_bind; [apply setupLogging_raises | intros _].
  apply raises_bind; [apply init_input_source_raises | intros src].
  apply raises_bind.
  { intros p e p' E. right. right. right.
    exact (init_rpc_raises _ _ _ _ E). }
  intros r. quiet.
Qed.

(** C6: in a constructed context at most one of [isDir], [isImage],
    [isVideo], [isRemote] is true, and all four are false when the input
    source is unresolved (a device number, a path that does not exist, an
    existing path of no known type).  The classification itself never
    raises: it returns for every input, logging one warning in the two path
    cases and nothing for a device number, and the exceptions the
    constructor can raise are those of the singleton check, the
    configuration file and the RPC server. *)
Theorem Context_input_flags_exclusive opts p :
  (forall c p', __init__ env opts p = (Ok c, p') ->
     (count_true (flags c) <= 1)%nat /\
     (Unresolved env (input_source opts) ->
      flags c = [false; false; false; false])) /\
  (forall o p0, exists src p1,
     init_input_source env o p0 = (Ok src, p1) /\
     events (world p1)
     = (events (world p0) ++ warnings env (input_source o))%list) /\
  (forall s, Unresolved env (SrcStr s) ->
     warnings env (SrcStr s)
     = match int_of_str env s with
       | Some _ => []
       | None =>
           [EvWarn (if path_exists env (abspath env s)
                    then "Input source type could not be determined: "
                         ++ abspath env s
                    else "Input source doesn't exist: " ++ abspath env s)]
       end) /\
  (forall e p', __init__ env opts p = (Raise e, p') ->
     e = singleton_error \/ e = IOError (config_file opts) \/ e = YAMLError \/
     exists port, rpc_start_server_thread env port = Some e).
Proof.
  split; [|split; [|split]].
  - intros c p' E. exact (init_flags opts _ _ _ E).
  - intros o p0.
    destruct (init_input_source_runs o p0) as (src & p1 & E & _ & Ev).
    now exists src, p1.
  - intros s U. unfold warnings.
    inversion U as [s' n Hi | s' Hi Hr Hx | s' Hi Hr Hx Hd Him Hv]; subst;
      rewrite Hi; [reflexivity| |]; rewrite Hr, Hx; [reflexivity|].
    now rewrite Hd, Him, Hv.
  - intros e p' E. exact (init_raises opts _ _ _ E).
Qed.

(** C5: when the configuration file cannot be opened the constructor
    raises the [IOError] of [open], having printed its message and nothing
    else: no logging is set up, no input source is looked at, no RPC server
    is started, and [createInstance] raises the same and registers no
    instance. *)
Theorem Context_config_failure_is_fatal opts p :
  instance p = None ->
  open_yaml env (config_file opts) = CfgOpenFails ->
  let w1 := if debug opts
            then emit (EvPrint ("Context.__init__(): Options: "
                                ++ pformat env opts)) (world p)
            else world p in
  let p' := mkProc None
              (emit (EvPrint ("Context.__init__(): Error reading config file: "
                              ++ config_file opts)) w1) in
  __init__ env opts p = (Raise (IOError (config_file opts)), p') /\
  createInstance env opts p = (Raise (IOError (config_file opts)), p').
Proof.
  intros I O w1 p'.
  assert (E : __init__ env opts p = (Raise (IOError (config_file opts)), p')).
  { unfold __init__. unfold bind at 1. unfold get at 1.
    unfold has_instance. rewrite I.
    unfold read_config, try_except, bind, when, print, modify, raise, ret.
    rewrite O. subst p' w1.
    destruct (debug opts); cbv beta iota; cbn [instance world];
      rewrite I; reflexivity. }
  split; [exact E|].
  unfold createInstance. unfold bind at 1. unfold get at 1.
  unfold has_instance. rewrite I. cbn [negb].
  unfold bind. now rewrite E.
Qed.

End ContextConstruction.

Lemma Context_input_flags_exclusive_witness :
  exists c p',
    Context.__init__ Sample.env (Sample.opts_for "config.yaml" "/data/notes.txt")
      Sample.proc0 = (Ok c, p') /\
    Context.flags c = [false; false; false; false].
Proof.
  eexists. eexists. split; [vm_compute; reflexivity|].
  refine (proj2 (proj1 (Context_input_flags_exclusive Sample.env
                          (Sample.opts_for "config.yaml" "/data/notes.txt")
                          Sample.proc0) _ _ _) _).
  - vm_compute; reflexivity.
  - apply Context.UnresolvedUnknown; reflexivity.
Defined.

Lemma Context_config_failure_is_fatal_witness :
  Context.__init__ Sample.env (Sample.opts_for "missing.yaml" "0") Sample.proc0
  = (Raise (IOError "missing.yaml"),
     Context.mkProc None
       (emit (EvPrint "Context.__init__(): Error reading config file: missing.yaml")
          (Sample.quiet 0))).
Proof.
  refine (proj1 (Context_config_failure_is_fatal Sample.env
                   (Sample.opts_for "missing.yaml" "0") Sample.proc0 _ _));
    reflexivity.
Defined.

(** C4 at work: two calls of the constructor in a fresh process.  The
    constructor tests [Context.instance] and never assigns it, so the second
    call passes the singleton check like the first and builds a second
    context; a [createInstance] after them builds a third and registers
    that one, it does not return the first. *)
Lemma Context_second_direct_construction_succeeds :
  exists c1 p1 c2 p2 c3 p3,
    Context.__init__ Sample.env Sample.opts Sample.proc0 = (Ok c1, p1) /\
    Context.instance p1 = None /\
    Context.__init__ Sample.env Sample.opts
      (Context.mkProc (Context.instance p1) (Sample.at_time 500)) = (Ok c2, p2) /\
    Context.instance p2 = None /\
    Context.timeStart c1 = 0 /\ Context.timeStart c2 = 500 /\
    Context.createInstance Sample.env Sample.opts
      (Context.mkProc (Context.instance p2) (Sample.at_time 900)) = (Ok c3, p3) /\
    Context.instance p3 = Some c3 /\ Context.timeStart c3 = 900.
Proof.
  do 6 eexists.
  split; [vm_compute; reflexivity|].
  split; [reflexivity|].
  split; [vm_compute; reflexivity|].
  split; [reflexivity|].
  split; [reflexivity|].
  split; [reflexivity|].
  split; [vm_compute; reflexivity|].
  split; reflexivity.
Qed.

(** ** ImageClient *)

Section ImageClientFacts.

Import ImageClient.

Variable St : Type.
Variable rpc_call : string -> M St PyVal.

(** C7: [read] makes one remote call.  A reply that is an array comes back
    as [(True, image)] with that array, any other reply ([None], a string,
    a number: whatever the transport hands over on a timeout) as
    [(False, None)], and [read] returns nothing else. *)
Theorem ImageClient_read_result self s :
  (forall a s', rpc_call (read_call self) s = (Ok (PyArray a), s') ->
     read rpc_call self s = (Ok (true, PyArray a), s')) /\
  (forall v s', rpc_call (read_call self) s = (Ok v, s') ->
     is_ndarray v = false ->
     read rpc_call self s = (Ok (false, PyNone), s')) /\
  (forall r s', read rpc_call self s = (Ok r, s') ->
     r = (false, PyNone) \/
     exists a, r = (true, PyArray a) /\
               rpc_call (read_call self) s = (Ok (PyArray a), s')).
Proof.
  unfold read, bind.
  split; [|split].
  - intros a s' E. now rewrite E.
  - intros v s' E N. rewrite E. now rewrite N.
  - intros r s' E.
    destruct (rpc_call (read_call self) s) as [[v|e] s1]; [|discriminate E].
    destruct v; cbn in E; injection E as <- <-; auto.
    right. now exists a.
Qed.

End ImageClientFacts.

Lemma ImageClient_read_result_witness :
  ImageClient.read (Sample.served (PyArray Sample.frame)) Sample.client
    (Sample.quiet 0)
  = (Ok (true, PyArray Sample.frame), Sample.quiet 0) /\
  ImageClient.read (Sample.served PyNone) Sample.client (Sample.quiet 0)
  = (Ok (false, PyNone), Sample.quiet 0).
Proof.
  split.
  - refine (proj1 (ImageClient_read_result World
                     (Sample.served (PyArray Sample.frame)) Sample.client
                     (Sample.quiet 0)) _ _ _).
    reflexivity.
  - refine (proj1 (proj2 (ImageClient_read_result World
                            (Sample.served PyNone) Sample.client
                            (Sample.quiet 0))) _ _ _ _); reflexivity.
Defined.

(** ** EventLogger *)

Section EventLoggerFacts.

Import EventLogger.

Variable env : Env.

Lemma append_assoc (a b c : string) : (a ++ b) ++ c = a ++ (b ++ c).
Proof. induction a as [|x a IH]; cbn; [reflexivity | now rewrite IH]. Qed.

Lemma count_lines_app (a b : string) :
  count_lines (a ++ b) = (count_lines a + count_lines b)%nat.
Proof.
  induction a as [|x a IH]; cbn; [reflexivity|]. rewrite IH. lia.
Qed.


(** C10: when the output file cannot be opened, [__init__] does not raise.
    It logs the error and the closing message and nothing else, so the
    object is not exported and no server is started; [serverStarted] is
    false and [out] was never assigned.  On that object [log] and [stop]
    raise [AttributeError] for [out], and neither writes a line, closes a
    stream or stops a server. *)
Theorem EventLogger_degraded_when_open_fails
        filename sep port do_export start_server w :
  let name := match filename with
              | Some f => f
              | None => "logs/events_"
                        ++ strftime env timestamp_format (now w) ++ ".log"
              end in
  can_open env name = false ->
  let self := mk name sep port false (now w) None in
  let w' := emit (EvInfo ("Logger successfully initialized; filename: " ++ name))
              (emit (EvError ("Error opening log file or starting RPC server: "
                              ++ str_exc env (IOError name))) w) in
  __init__ env filename sep port do_export start_server w = (Ok tt, (self, w')) /\
  serverStarted self = false /\ out self = None /\
  (forall tag msg,
     log env tag msg (self, w') = (Raise (AttributeError "out"), (self, w'))) /\
  (forall stop_server,
     stop stop_server (self, w') = (Raise (AttributeError "out"), (self, w'))).
Proof.
  intros name O self w'.
  split; [|split; [reflexivity|split; [reflexivity|split]]].
  - unfold __init__. fold name.
    unfold init_body, try_except, bind, get, raise, log_event, modify.
    cbn [fst snd EventLogger.filename]. rewrite O. reflexivity.
  - intros tag msg. reflexivity.
  - intros b. reflexivity.
Qed.

End EventLoggerFacts.


Lemma EventLogger_degraded_when_open_fails_witness :
  exists self w,
    EventLogger.__init__ Sample.logenv (Some "/root/events.log")
      EventLogger.default_sep EventLogger.default_port true true
      (Sample.at_time 0) = (Ok tt, (self, w)) /\
    EventLogger.out self = None /\
    EventLogger.log Sample.logenv "cam0" "frame 1" (self, w)
    = (Raise (AttributeError "out"), (self, w)).
Proof.
  pose proof (EventLogger_degraded_when_open_fails Sample.logenv
                (Some "/root/events.log") EventLogger.default_sep
                EventLogger.default_port true true (Sample.at_time 0)
                eq_refl) as (E & _ & O & L & _).
  eexists. eexists. split; [exact E|]. split; [exact O | exact (L _ _)].
Defined.

(** * Beyond the claims *)

(** ** Context: what the constructor leaves behind *)

Section ContextMore.

Import Context.

Variable env : Env.

Lemma bind_Ok_inv {S A B} (c : M S A) (k : A -> M S B) s b s' :
  bind c k s = (Ok b, s') ->
  exists a s1, c s = (Ok a, s1) /\ k a s1 = (Ok b, s').
Proof.
  unfold bind. destruct (c s) as [[a|e] s1]; [|discriminate].
  intros E. now exists a, s1.
Qed.

(** The options the classification starts from. *)
Lemma init_inv opts p c p' :
  __init__ env opts p = (Ok c, p') ->
  instance p = None /\ instance p' = None /\
  now (world p') = now (world p) /\
  exists cfg src r pa pb pc pd pe pf,
    read_config env opts pa = (Ok cfg, pb) /\
    init_input_source env
      match delay opts with
      | None => if gui opts then set_delay (Some default_delay) opts else opts
      | Some _ => opts
      end pc = (Ok src, pd) /\
    init_rpc env (src_options src) pe = (Ok r, pf) /\
    c = resetTime
          (mk (fst r) cfg (abspath env (res_path opts)) (src_isDir src)
             (src_isImage src) (src_isVideo src) (src_isRemote src)
             (src_remoteEndpoint src) (snd r) 0 0 false 0)
          (world p').
Proof.
  intros E. pose proof (init_only_emits env opts _ _ _ E) as (I & N & _).
  unfold __init__ in E.
  apply bind_Ok_inv in E as (p0 & q0 & E0 & E). injection E0 as <- <-.
  unfold has_instance in E.
  destruct (instance p) eqn:Hi; [discriminate E|].
  split; [reflexivity|]. split; [congruence|]. split; [exact N|].
  apply bind_Ok_inv in E as ([] & p1 & E1 & E).
  apply bind_Ok_inv in E as (cfg & p2 & E2 & E).
  apply bind_Ok_inv in E as ([] & p3 & E3 & E).
  apply bind_Ok_inv in E as ([] & p4 & E4 & E).
  apply bind_Ok_inv in E as (src & p5 & E5 & E).
  apply bind_Ok_inv in E as (r & p6 & E6 & E).
  apply bind_Ok_inv in E as (p7 & p8 & E7 & E). injection E7 as <- <-.
  injection E as <- <-.
  exists cfg, src, r. do 6 eexists.
  split; [exact E2|]. split; [exact E5|]. split; [exact E6|]. reflexivity.
Qed.

Lemma read_config_Ok o pa cfg pb :
  read_config env o pa = (Ok cfg, pb) ->
  open_yaml env (config_file o) = CfgLoaded cfg.
Proof.
  unfold read_config. intros E.
  apply bind_Ok_inv in E as (cfg' & p1 & E1 & E).
  apply bind_Ok_inv in E as ([] & p2 & _ & E). injection E as <- <-.
  unfold try_except in E1.
  destruct (open_yaml env (config_file o)); cbn in E1;
    [discriminate E1 | discriminate E1 | now injection E1 as <- <-].
Qed.

Lemma init_rpc_Ok o pa r pb :
  init_rpc env o pa = (Ok r, pb) ->
  snd r = negb (is_minus_one (rpc_port o)) /\
  delay (fst r) = delay o /\
  input_source (fst r) = input_source o /\
  rpc_port (fst r) = match rpc_port o with
                     | None => Some (rpc_default_port env)
                     | Some port => Some port
                     end /\
  (snd r = true ->
   exists port, rpc_port (fst r) = Some port /\
                rpc_start_server_thread env port = None /\
                events (world pb) = (events (world pa) ++ [EvRpcStart port])%list) /\
  (snd r = false -> pb = pa).
Proof.
  unfold init_rpc, is_minus_one. intros E.
  destruct (rpc_port o) as [q|] eqn:Hq.
  - destruct (q =? -1) eqn:Hm; cbn [negb] in E.
    + injection E as <- <-. cbn. rewrite Hq.
      repeat split; try discriminate.
    + destruct (rpc_start_server_thread env q) eqn:Hs; [discriminate E|].
      injection E as <- <-. cbn.
      repeat split; try discriminate. intros _. now exists q.
  - destruct (rpc_start_server_thread env (rpc_default_port env)) eqn:Hs;
      [discriminate E|].
    injection E as <- <-. cbn.
    repeat split; try discriminate. intros _.
    now exists (rpc_default_port env).
Qed.

(** The classification, case by case. *)
Lemma init_input_source_Ok o pa src pb :
  init_input_source env o pa = (Ok src, pb) ->
  delay (src_options src) = delay o /\
  rpc_port (src_options src) = rpc_port o /\
  match input_source o with
  | SrcStr s =>
      match int_of_str env s with
      | Some n =>
          input_source (src_options src) = SrcInt n /\
          src_flags src = [false; false; false; false]
      | None =>
          src_remoteEndpoint src = snd (util_isRemote env s) /\
          if fst (util_isRemote env s) then
            input_source (src_options src) = SrcStr s /\
            src_flags src = [false; false; false; true]
          else
            let path := abspath env s in
            input_source (src_options src) = SrcStr path /\
            src_flags src =
              if path_exists env path then
                if path_isdir env path then [true; false; false; false]
                else if isImageFile env path then [false; true; false; false]
                else if isVideoFile env path then [false; false; true; false]
                else [false; false; false; false]
              else [false; false; false; false]
      end
  | other => input_source (src_options src) = other /\
             src_flags src = [false; false; false; false]
  end.
Proof.
  unfold init_input_source. intros E.
  destruct (input_source o) as [|s|n] eqn:Es;
    try (injection E as <- <-; now repeat split).
  destruct (int_of_str env s); [injection E as <- <-; now repeat split|].
  destruct (util_isRemote env s) as [rem ep]. cbn [fst snd].
  destruct rem; cbn [negb] in E; [injection E as <- <-; now repeat split|].
  cbv zeta.
  destruct (path_exists env (abspath env s));
    [|cbn in E; injection E as <- <-; now repeat split].
  destruct (path_isdir env (abspath env s));
    [injection E as <- <-; now repeat split|].
  destruct (isImageFile env (abspath env s));
    [injection E as <- <-; now repeat split|].
  destruct (isVideoFile env (abspath env s));
    [injection E as <- <-; now repeat split|].
  cbn in E; injection E as <- <-; now repeat split.
Qed.

(** X1: a constructed context holds the configuration that was loaded and
    the absolute resource path; its delay is the one asked for, or the
    default of 10 ms when none was asked for and the GUI is on, and stays
    unset without GUI; RPC is enabled unless the port option is -1, on the
    port asked for or on the default port of the transport for a bare
    [--rpc], and then the server was started on that port. *)
Theorem Context_construction_settles_options opts p c p' :
  __init__ env opts p = (Ok c, p') ->
  open_yaml env (config_file opts) = CfgLoaded (config c) /\
  resPath c = abspath env (res_path opts) /\
  delay (options c)
  = match delay opts with
    | Some d => Some d
    | None => if gui opts then Some default_delay else None
    end /\
  isRPCEnabled c = negb (is_minus_one (rpc_port opts)) /\
  rpc_port (options c)
  = match rpc_port opts with
    | None => Some (rpc_default_port env)
    | Some port => Some port
    end /\
  (isRPCEnabled c = true ->
   exists port, rpc_port (options c) = Some port /\
                rpc_start_server_thread env port = None).
Proof.
  intros E.
  destruct (init_inv _ _ _ _ E)
    as (_ & _ & _ & cfg & src & r & pa & pb & pc & pd & pe & pf
        & Ec & Es & Er & ->).
  apply read_config_Ok in Ec.
  apply init_input_source_Ok in Es as (Sd & Sr & _).
  apply init_rpc_Ok in Er as (Re & Rd & _ & Rp & Rs & _).
  cbn [resetTime options config resPath isRPCEnabled].
  split; [exact Ec|]. split; [reflexivity|].
  split.
  { rewrite Rd, Sd. destruct (delay opts) eqn:D, (gui opts); cbn; congruence. }
  split.
  { rewrite Re, Sr. now destruct (delay opts) eqn:D, (gui opts). }
  split.
  { rewrite Rp, Sr. now destruct (delay opts) eqn:D, (gui opts). }
  intros En. destruct (Rs En) as (port & Hp & Hs & _). now exists port.
Qed.

(** X2: the constructor ends with [resetTime]: the context it returns is
    not paused, has no elapsed time, and has its origin and its pause mark
    at the clock reading of the construction, so that an [update] at a
    later reading gives the time since the construction. *)
Theorem Context_construction_starts_clock opts p c p' w :
  __init__ env opts p = (Ok c, p') ->
  timeStart c = now (world p) /\ timePaused c = now (world p) /\
  timeNow c = 0 /\ isPaused c = false /\
  timeNow (update c w) = now w - now (world p).
Proof.
  intros E.
  destruct (init_inv _ _ _ _ E)
    as (_ & _ & N & cfg & src & r & pa & pb & pc & pd & pe & pf
        & _ & _ & _ & ->).
  cbn. rewrite N. repeat split.
Qed.

(** X3: the input source is classified in a fixed order.  A string that
    [int] accepts is a device number, whatever else it could be; otherwise
    a string [isRemote] accepts is remote, with its endpoint kept and the
    option left as given; otherwise the option becomes the absolute path,
    and an existing directory sets [isDir] alone, an existing file that is
    an image sets [isImage] alone even if it also counts as a video, and
    an existing file that is only a video sets [isVideo] alone. *)
Theorem Context_classifies_input_source opts p c p' s :
  __init__ env opts p = (Ok c, p') ->
  input_source opts = SrcStr s ->
  let path := abspath env s in
  (forall n, int_of_str env s = Some n ->
     input_source (options c) = SrcInt n /\
     flags c = [false; false; false; false]) /\
  (forall ep, int_of_str env s = None -> util_isRemote env s = (true, ep) ->
     input_source (options c) = SrcStr s /\ remoteEndpoint c = ep /\
     flags c = [false; false; false; true]) /\
  (int_of_str env s = None -> fst (util_isRemote env s) = false ->
     input_source (options c) = SrcStr path /\
     (path_exists env path = true -> path_isdir env path = true ->
      flags c = [true; false; false; false]) /\
     (path_exists env path = true -> path_isdir env path = false ->
      isImageFile env path = true ->
      flags c = [false; true; false; false]) /\
     (path_exists env path = true -> path_isdir env path = false ->
      isImageFile env path = false -> isVideoFile env path = true ->
      flags c = [false; false; true; false])).
Proof.
  intros E Hs path.
  destruct (init_inv _ _ _ _ E)
    as (_ & _ & _ & cfg & src & r & pa & pb & pc & pd & pe & pf
        & _ & Es & Er & ->).
  apply init_input_source_Ok in Es as (_ & _ & Hc).
  apply init_rpc_Ok in Er as (_ & _ & Ri & _).
  replace (input_source _) with (SrcStr s) in Hc
    by (destruct (delay opts), (gui opts); cbn; congruence).
  change (flags (resetTime _ _)) with (src_flags src).
  cbn [resetTime options remoteEndpoint]. rewrite Ri.
  split; [|split].
  - intros n Hn. now rewrite Hn in Hc.
  - intros ep Hn Hr. rewrite Hn, Hr in Hc. cbn in Hc.
    destruct Hc as (-> & -> & ->). now repeat split.
  - intros Hn Hr. rewrite Hn, Hr in Hc.
    destruct Hc as (_ & Hi & Hf). fold path in Hf.
    split; [exact Hi|]. rewrite Hf.
    split; [|split].
    + now intros -> ->.
    + now intros -> -> ->.
    + now intros -> -> -> ->.
Qed.

(** X4: for a device number and for a remote source the file system is
    not consulted: on two machines that agree on [int] and on [isRemote]
    for the string, whatever their files, the classification does the
    same. *)
Theorem Context_remote_source_skips_filesystem (env2 : Env) o p s :
  input_source o = SrcStr s ->
  int_of_str env2 s = int_of_str env s ->
  util_isRemote env2 s = util_isRemote env s ->
  int_of_str env s <> None \/ fst (util_isRemote env s) = true ->
  init_input_source env2 o p = init_input_source env o p.
Proof.
  intros Hs Hi Hr H. unfold init_input_source. rewrite Hs, Hi, Hr.
  destruct (int_of_str env s); [reflexivity|].
  destruct H as [H|H]; [congruence|].
  destruct (util_isRemote env s) as [rem ep]. cbn in H. now subst rem.
Qed.

(** X5: [getInstance] returns the registered instance and raises its
    "called before context was created" exception when there is none; it
    changes nothing.  What [createInstance] returns is registered, so that
    [getInstance] and every later [createInstance], whatever its
    arguments, return that same instance, and the constructor raises the
    singleton error without touching the process. *)
Theorem Context_createInstance_registers opts p c p1 :
  createInstance env opts p = (Ok c, p1) ->
  instance p1 = Some c /\
  getInstance p1 = (Ok c, p1) /\
  (forall p0, instance p0 = None ->
     getInstance p0
     = (Raise (Exception
                 "Context.getInstance(): Called before context was created."),
        p0)) /\
  (forall env' opts', exists p2,
     createInstance env' opts' p1 = (Ok c, p2) /\ instance p2 = Some c) /\
  (forall env' opts', __init__ env' opts' p1 = (Raise singleton_error, p1)).
Proof.
  intros E.
  assert (I : instance p1 = Some c).
  { destruct (instance p) as [c0|] eqn:Hi.
    - rewrite (createInstance_with_instance env opts p c0 Hi) in E.
      now injection E as <- <-.
    - unfold createInstance in E.
      apply bind_Ok_inv in E as (p0 & q0 & E0 & E). injection E0 as <- <-.
      unfold has_instance in E. rewrite Hi in E. cbn [negb] in E.
      apply bind_Ok_inv in E as ([] & p2 & E2 & E).
      apply bind_Ok_inv in E2 as (self & p3 & _ & E2).
      injection E2 as <-.
      apply bind_Ok_inv in E as (p4 & p5 & E4 & E). injection E4 as <- <-.
      cbn in E. injection E as <- <-. reflexivity. }
  split; [exact I|]. split; [|split; [|split]].
  - unfold getInstance, try_except, bind, get. now rewrite I.
  - intros p0 H0. unfold getInstance, try_except, bind, get. now rewrite H0.
  - intros env' opts'.
    rewrite (createInstance_with_instance env' opts' p1 c I).
    eexists. split; reflexivity.
  - intros env' opts'. exact (init_with_instance env' opts' p1 c I).
Qed.

End ContextMore.

Lemma Context_construction_settles_options_witness :
  exists c p',
    Context.__init__ Sample.env Sample.opts_rpc Sample.proc0 = (Ok c, p') /\
    Context.delay (Context.options c) = Some 10 /\
    Context.isRPCEnabled c = true /\
    Context.rpc_port (Context.options c) = Some 60606.
Proof.
  destruct (Context.__init__ Sample.env Sample.opts_rpc Sample.proc0)
    as [[c|e] p'] eqn:E; [|vm_compute in E; discriminate E].
  exists c, p'. split; [reflexivity|].
  destruct (Context_construction_settles_options _ _ _ _ _ E)
    as (_ & _ & D & R & P & _).
  split; [exact D|]. split; [exact R | exact P].
Defined.

Lemma Context_construction_starts_clock_witness :
  exists c p',
    Context.__init__ Sample.env Sample.opts
      (Context.mkProc None (Sample.at_time 700)) = (Ok c, p') /\
    Context.timeStart c = 700 /\
    Context.timeNow (Context.update c (Sample.at_time 1000)) = 300.
Proof.
  destruct (Context.__init__ Sample.env Sample.opts
              (Context.mkProc None (Sample.at_time 700)))
    as [[c|e] p'] eqn:E; [|vm_compute in E; discriminate E].
  exists c, p'. split; [reflexivity|].
  destruct (Context_construction_starts_clock _ _ _ _ _
              (Sample.at_time 1000) E) as (T & _ & _ & _ & U).
  split; [exact T | exact U].
Defined.

Lemma Context_classifies_input_source_witness :
  exists c p',
    Context.__init__ Sample.env Sample.opts_rpc Sample.proc0 = (Ok c, p') /\
    Context.input_source (Context.options c) = Context.SrcStr "/data/a.png" /\
    Context.flags c = [false; true; false; false].
Proof.
  destruct (Context.__init__ Sample.env Sample.opts_rpc Sample.proc0)
    as [[c|e] p'] eqn:E; [|vm_compute in E; discriminate E].
  exists c, p'. split; [reflexivity|].
  destruct (Context_classifies_input_source _ _ _ _ _ "/data/a.png" E eq_refl)
    as (_ & _ & F).
  destruct (F eq_refl eq_refl) as (I & _ & Img & _).
  split; [exact I|]. apply Img; reflexivity.
Defined.

Lemma Context_remote_source_skips_filesystem_witness :
  Context.init_input_source Sample.env_offline
    (Sample.opts_for "config.yaml" "tcp://camera:9000") Sample.proc0
  = Context.init_input_source Sample.env
      (Sample.opts_for "config.yaml" "tcp://camera:9000") Sample.proc0.
Proof.
  apply (Context_remote_source_skips_filesystem Sample.env Sample.env_offline
           _ _ "tcp://camera:9000"); try reflexivity.
  right. reflexivity.
Defined.

Lemma Context_createInstance_registers_witness :
  exists c p1,
    Context.createInstance Sample.env Sample.opts Sample.proc0 = (Ok c, p1) /\
    Context.getInstance p1 = (Ok c, p1) /\
    Context.__init__ Sample.env_offline Sample.opts_rpc p1
    = (Raise Context.singleton_error, p1).
Proof.
  destruct (Context.createInstance Sample.env Sample.opts Sample.proc0)
    as [[c|e] p1] eqn:E; [|vm_compute in E; discriminate E].
  exists c, p1. split; [reflexivity|].
  destruct (Context_createInstance_registers Sample.env _ _ _ _ E)
    as (_ & G & _ & _ & I).
  split; [exact G | exact (I _ _)].
Defined.

(** ** Context: pause and resume without their partner *)

Section ContextTimeMore.

Import Context.

(** X6: [resume] does not look at [isPaused].  On a context that was never
    paused since [resetTime] it moves the origin to the present, so the
    elapsed time starts again from zero; called twice after one [pause] it
    takes the pause out twice, and the time between the two calls as
    well. *)
Theorem Context_resume_is_unguarded self w0 w1 w2 w3 w :
  timeStart (resume (resetTime self w0) w1) = now w1 /\
  timeNow (update (resume (resetTime self w0) w1) w) = now w - now w1 /\
  timeStart (resume (resume (pause self w1) w2) w3)
  = timeStart self + (now w2 - now w1) + (now w3 - now w1) /\
  isPaused (resume (resetTime self w0) w1) = false.
Proof. cbn. repeat split; lia. Qed.

(** X7: [pause] does not look at [isPaused] either.  A second [pause]
    moves the pause mark, so the [resume] that follows takes out the time
    since the second call only: the time between the two calls of [pause]
    stays in the elapsed time. *)
Theorem Context_second_pause_moves_mark self w0 w1 w2 w3 :
  let before := update self w0 in
  let after := update (resume (pause (pause before w1) w2) w3) w3 in
  timePaused (pause (pause before w1) w2) = now w2 /\
  timeNow after = timeNow before + (now w2 - now w0).
Proof. cbn. split; lia. Qed.

(** X8: [resetTime] starts the clock afresh whatever went before, paused or
    not: the elapsed time of an [update] after it is the time since the
    reset, and is not negative when the clock has not gone back. *)
Theorem Context_resetTime_starts_afresh self w0 w :
  let fresh := resetTime self w0 in
  isPaused fresh = false /\ timeNow fresh = 0 /\
  timeNow (update fresh w) = now w - now w0 /\
  (now w0 <= now w -> 0 <= timeNow (update fresh w)) /\
  timeNow (update (resetTime (pause self w0) w0) w) = now w - now w0.
Proof. cbn. repeat split; lia. Qed.

End ContextTimeMore.

Lemma Context_resetTime_starts_afresh_witness :
  exists c p',
    Context.createInstance Sample.env Sample.opts Sample.proc0 = (Ok c, p') /\
    0 <= Context.timeNow
           (Context.update (Context.resetTime c (Sample.at_time 100))
              (Sample.at_time 250)).
Proof.
  eexists. eexists. split; [vm_compute; reflexivity|].
  refine (proj1 (proj2 (proj2 (proj2
            (Context_resetTime_starts_afresh _ (Sample.at_time 100)
               (Sample.at_time 250))))) _).
  vm_compute. discriminate.
Defined.

(** ** Context: logging *)

Section ContextLogging.

Import Context.

Variable env : Env.

Lemma skipn_app_exact {A} (l x : list A) : skipn (List.length l) (l ++ x) = x.
Proof. induction l as [|a l IH]; [reflexivity | exact IH]. Qed.

(** X9: [setupLogging] never raises.  With the log option "none", or when
    the logging configuration cannot be read or applied, it installs the
    null handler and touches no level.  When the configuration is applied
    it installs no null handler, and afterwards the root logger is at DEBUG
    or below in a debug run and above DEBUG in any other run. *)
Theorem Context_setupLogging_never_fatal o rp p :
  let r := setupLogging env o rp p in
  let evs := emitted (setupLogging env o rp) p in
  let cfgfile := getResourcePath env rp "config" "logging.yaml" in
  let filename := if String.eqb (log_file o) "auto" then default_log_file env
                  else log_file o in
  fst r = Ok tt /\ instance (snd r) = instance p /\
  events (world (snd r)) = (events (world p) ++ evs)%list /\
  match String.eqb (log_file o) "none", load_logging env cfgfile,
        dictConfig env cfgfile filename with
  | false, None, None =>
      In (EvDictConfig filename) evs /\ ~ In EvNullHandler evs /\
      let lvl := level_after (root_level env cfgfile) evs in
      if debug o then lvl <= DEBUG else DEBUG < lvl
  | _, _, _ =>
      In EvNullHandler evs /\ (forall l, level_after l evs = l) /\
      (forall f, ~ In (EvDictConfig f) evs)
  end.
Proof.
  cbv zeta. unfold emitted, setupLogging.
  set (cfgfile := getResourcePath env rp "config" "logging.yaml").
  set (filename := if String.eqb (log_file o) "auto" then default_log_file env
                   else log_file o).
  set (lvl0 := root_level env cfgfile).
  destruct (String.eqb (log_file o) "none").
  { destruct (debug o); cbn; rewrite <- ?app_assoc, skipn_app_exact; cbn;
      (split; [reflexivity|]; split; [reflexivity|]; split; [reflexivity|]);
      destruct (load_logging env cfgfile), (dictConfig env cfgfile filename);
      (split; [tauto|]; split; [reflexivity|]);
      intros f [H|H]; try discriminate H; try destruct H as [H|H];
      try discriminate H; try contradiction. }
  unfold try_except, bind, when, print, log, modify, raise, ret.
  destruct (load_logging env cfgfile) as [e1|].
  { destruct (debug o), e1; cbn; rewrite <- ?app_assoc, skipn_app_exact; cbn;
      (split; [reflexivity|]; split; [reflexivity|]; split; [reflexivity|]);
      (split; [tauto|]; split; [reflexivity|]);
      intros f H; repeat (destruct H as [H|H]; [discriminate H|]);
      contradiction. }
  destruct (dictConfig env cfgfile filename) as [e2|].
  { destruct (debug o), e2; cbn; rewrite <- ?app_assoc, skipn_app_exact; cbn;
      (split; [reflexivity|]; split; [reflexivity|]; split; [reflexivity|]);
      (split; [tauto|]; split; [reflexivity|]);
      intros f H; repeat (destruct H as [H|H]; [discriminate H|]);
      contradiction. }
  destruct (debug o); cbn [andb negb].
  - destruct (DEBUG <? lvl0) eqn:C; cbn; rewrite <- ?app_assoc, skipn_app_exact;
      cbn;
      (split; [reflexivity|]; split; [reflexivity|]; split; [reflexivity|]);
      (split; [tauto|]; split;
       [intros H; repeat (destruct H as [H|H]; [discriminate H|]); contradiction|]).
    + unfold DEBUG. lia.
    + apply Z.ltb_ge in C. exact C.
  - destruct (lvl0 <=? DEBUG) eqn:C; cbn; rewrite <- ?app_assoc, skipn_app_exact;
      cbn;
      (split; [reflexivity|]; split; [reflexivity|]; split; [reflexivity|]);
      (split; [tauto|]; split;
       [intros H; repeat (destruct H as [H|H]; [discriminate H|]); contradiction|]).
    + unfold DEBUG, INFO. lia.
    + apply Z.leb_gt in C. exact C.
Qed.

End ContextLogging.

(** ** ImageServer: what a read waits for *)

Section ImageServerMore.

Import ImageServer.

Lemma wait_loop_ready fuel ws self w :
  image self <> None -> wait_loop fuel ws self w = Some (self, w).
Proof.
  intros H. destruct (image self) eqn:E; [|contradiction].
  destruct fuel; cbn; now rewrite E.
Qed.

(** X10: a frame that was written is returned by the next [read] at once,
    without a sleep, also by the first [read] of a server; it is the frame
    of the last [write], and the flag is down afterwards. *)
Theorem ImageServer_written_frame_is_read_at_once self w a b :
  read (write b self) w
  = Some (Some b, {| image := Some b; isFresh := false |}, w) /\
  read (write b (write a self)) w
  = Some (Some b, {| image := Some b; isFresh := false |}, w).
Proof.
  assert (R : forall s, read (write b s) w
                        = Some (Some b, {| image := Some b; isFresh := false |}, w)).
  { intros s. unfold read, write. cbn [isFresh image].
    destruct (isFresh s); [|reflexivity].
    rewrite wait_loop_ready; [reflexivity | discriminate]. }
  split; apply R.
Qed.

Lemma duration_nonneg ticks : 0 <= duration ticks.
Proof.
  induction ticks as [|tk ticks IH]; cbn [duration]; unfold wait_interval; lia.
Qed.

Lemma duration_length ticks :
  wait_interval * Z.of_nat (List.length ticks) <= duration ticks.
Proof.
  induction ticks as [|tk ticks IH]; cbn [duration List.length];
    unfold wait_interval in *; lia.
Qed.

Lemma wait_loop_first_write ws tk rest a pre : forall fuel self w,
  image self = None ->
  sched w = (pre ++ tk :: rest)%list ->
  forallb no_write pre = true ->
  written tk = Some a ->
  now w - ws + duration pre < max_wait_duration ->
  (List.length pre < fuel)%nat ->
  wait_loop fuel ws self w
  = Some (write a self,
          {| now := now w + duration pre + wait_interval + Z.of_N (oversleep tk);
             sched := rest;
             slept := slept w + S (List.length pre);
             events := events w |}).
Proof.
  induction pre as [|t pre IH]; intros fuel self w Hi Hs Hq Hw Hd Hf.
  - destruct fuel as [|fuel]; [cbn in Hf; lia|].
    cbn [wait_loop]. rewrite Hi. cbn [is_None andb duration] in *.
    replace (now w - ws <? max_wait_duration) with true
      by (symmetry; apply Z.ltb_lt; unfold wait_interval in *; lia).
    unfold sleep. cbn [app] in Hs. rewrite Hs, Hw.
    rewrite wait_loop_ready by discriminate.
    do 3 f_equal; cbn [List.length]; lia.
  - destruct fuel as [|fuel]; [cbn in Hf; lia|].
    cbn [forallb] in Hq. apply andb_true_iff in Hq as [Ht Hq].
    unfold no_write in Ht. destruct (written t) eqn:Wt; [discriminate Ht|].
    pose proof (duration_nonneg pre) as Dp.
    cbn [wait_loop]. rewrite Hi. cbn [is_None andb duration] in *.
    replace (now w - ws <? max_wait_duration) with true
      by (symmetry; apply Z.ltb_lt; unfold wait_interval in *; lia).
    unfold sleep. cbn [app] in Hs. rewrite Hs, Wt.
    rewrite (IH fuel); cbn [now sched slept events List.length] in *;
      try assumption; try reflexivity; try lia.
    do 3 f_equal; lia.
Qed.

(** X11: the first [read] of a server without an image returns the first
    frame the owner writes, as soon as the sleep during which it was
    written is over, provided the sleeps before it ended within
    [max_wait_duration]; it has slept once per tick up to that one. *)
Theorem ImageServer_read_returns_first_write self w pre tk rest a :
  isFresh self = true ->
  image self = None ->
  sched w = (pre ++ tk :: rest)%list ->
  forallb no_write pre = true ->
  written tk = Some a ->
  duration pre < max_wait_duration ->
  read self w
  = Some (Some a, {| image := Some a; isFresh := false |},
          {| now := now w + duration pre + wait_interval + Z.of_N (oversleep tk);
             sched := rest;
             slept := slept w + S (List.length pre);
             events := events w |}).
Proof.
  intros F Hi Hs Hq Hw Hd. unfold read. rewrite F.
  rewrite (wait_loop_first_write (now w) tk rest a pre); try assumption.
  - reflexivity.
  - lia.
  - pose proof (duration_length pre) as L.
    unfold max_polls.
    change (Z.to_nat (max_wait_duration / wait_interval)) with 20%nat.
    unfold wait_interval, max_wait_duration in *. lia.
Qed.

Lemma wait_loop_bounded b ws fuel : forall self w self' w',
  0 <= b ->
  (forall tk, In tk (sched w) -> Z.of_N (oversleep tk) <= b) ->
  now w - ws < max_wait_duration + wait_interval + b ->
  wait_loop fuel ws self w = Some (self', w') ->
  now w <= now w' /\ now w' - ws < max_wait_duration + wait_interval + b.
Proof.
  induction fuel as [|fuel IH]; intros self w self' w' B Hb H0 E;
    cbn [wait_loop] in E;
    destruct (is_None (image self) && (now w - ws <? max_wait_duration)) eqn:C;
    try discriminate E; try (injection E as <- <-; lia).
  apply andb_true_iff in C as [_ C]. apply Z.ltb_lt in C.
  unfold sleep in E. destruct (sched w) as [|tk rest] eqn:Hs.
  - apply IH in E; cbn [now sched] in *.
    + unfold wait_interval in *. lia.
    + exact B.
    + intros tk [].
    + unfold wait_interval in *. lia.
  - pose proof (Hb tk (or_introl eq_refl)) as Ht.
    apply IH in E; cbn [now sched] in *.
    + unfold wait_interval in *. lia.
    + exact B.
    + intros tk' I. apply Hb. now right.
    + unfold wait_interval in *. lia.
Qed.

(** X12: a [read] never waits longer than [max_wait_duration] and one sleep
    more: when no sleep overruns by more than [b], it returns less than
    [max_wait_duration + wait_interval + b] after it was called. *)
Theorem ImageServer_read_wait_is_bounded self w b :
  0 <= b ->
  (forall tk, In tk (sched w) -> Z.of_N (oversleep tk) <= b) ->
  exists img self' w',
    read self w = Some (img, self', w') /\
    now w <= now w' < now w + max_wait_duration + wait_interval + b.
Proof.
  intros B Hb.
  destruct (read_returns self w) as (img & self' & w' & R & _).
  exists img, self', w'. split; [exact R|].
  unfold read in R. destruct (isFresh self).
  - destruct (wait_loop max_polls (now w) self w) as [[s1 w1]|] eqn:E;
      [|discriminate R].
    injection R as _ _ <-.
    apply (wait_loop_bounded b) in E; [lia | exact B | exact Hb |].
    unfold max_wait_duration, wait_interval. lia.
  - injection R as _ _ <-. unfold max_wait_duration, wait_interval. lia.
Qed.

End ImageServerMore.

Lemma ImageServer_read_returns_first_write_witness :
  ImageServer.read Sample.server0 Sample.busy
  = Some (Some Sample.frame,
          {| ImageServer.image := Some Sample.frame;
             ImageServer.isFresh := false |},
          {| now := 5310; sched := []; slept := 3; events := [] |}).
Proof.
  apply (ImageServer_read_returns_first_write Sample.server0 Sample.busy
           [mkTick 0 None; mkTick 7 None] (mkTick 3 (Some Sample.frame)) []
           Sample.frame); reflexivity.
Defined.

Lemma ImageServer_read_wait_is_bounded_witness :
  exists img self' w',
    ImageServer.read Sample.server0 Sample.busy = Some (img, self', w') /\
    5000 <= now w' < 5000 + 2000 + 100 + 7.
Proof.
  apply (ImageServer_read_wait_is_bounded Sample.server0 Sample.busy 7).
  - discriminate.
  - intros tk [<-|[<-|[<-|[]]]]; discriminate.
Defined.

(** ** EventLogger: construction, runs of calls, stop *)

Section EventLoggerMore.

Import EventLogger.

Variable env : Env.

(** X13: the constructor of an event logger never raises, whatever the
    file system and the transport do.  The stream is open and empty exactly
    when the file could be opened, also when the transport failed after
    that; [serverStarted] is true exactly when the file was opened, export
    and server start were asked for, and neither raised. *)
Theorem EventLogger_constructor_never_raises
        filename sep port do_export start_server w :
  let name := match filename with
              | Some f => f
              | None => "logs/events_"
                        ++ strftime env timestamp_format (now w) ++ ".log"
              end in
  exists self w',
    __init__ env filename sep port do_export start_server w
    = (Ok tt, (self, w')) /\
    EventLogger.filename self = name /\ initTime self = now w /\
    out self = (if can_open env name
                then Some (Some (mkFile name false ""))
                else None) /\
    (serverStarted self = true <->
     can_open env name = true /\ do_export = true /\ start_server = true /\
     rpc_export env = None /\ rpc_start_server_thread env port = None) /\
    now w' = now w.
Proof.
  intros name. unfold __init__. fold name.
  unfold init_body, try_except, bind, get, raise, ret, when, log_event,
    set_out, set_serverStarted, modify.
  cbn [fst snd EventLogger.filename EventLogger.port].
  destruct (can_open env name) eqn:O.
  2:{ eexists. eexists. split; [reflexivity|]. cbn.
      repeat split; try reflexivity; try discriminate; intuition congruence. }
  destruct do_export.
  2:{ eexists. eexists. split; [reflexivity|]. cbn.
      repeat split; try reflexivity; try discriminate; intuition congruence. }
  destruct (rpc_export env) eqn:X.
  { eexists. eexists. split; [reflexivity|]. cbn.
    repeat split; try reflexivity; try discriminate; intuition congruence. }
  destruct start_server.
  2:{ eexists. eexists. split; [reflexivity|]. cbn.
      repeat split; try reflexivity; try discriminate; intuition congruence. }
  cbn [fst snd EventLogger.filename EventLogger.port].
  destruct (rpc_start_server_thread env port) eqn:T.
  { eexists. eexists. split; [reflexivity|]. cbn.
    repeat split; try reflexivity; try discriminate; intuition congruence. }
  eexists. eexists. split; [reflexivity|]. cbn.
  repeat split; try reflexivity; try discriminate; intuition congruence.
Qed.

Lemma log_open tag msg self w f :
  out self = Some (Some f) ->
  closed f = false ->
  log env tag msg (self, w)
  = (Ok tt,
     (with_out self
        (Some (mkFile (path f) false
                 (content f ++ line_of env (sep self) (now w) (tag, msg)))),
      w)).
Proof.
  intros O C.
  unfold log, get_out, bind, get, ret, set_out, modify. cbn [fst snd].
  now rewrite O, C.
Qed.

(** X14: on an open stream a run of [log] calls appends one line per call,
    in the order of the calls, each with the separator of the logger and
    the clock reading of the call; the stream stays open and nothing else
    changes.  When no line has a line end inside, the stream has grown by
    as many lines as there were calls. *)
Theorem EventLogger_log_all_appends_in_order entries : forall self w f,
  out self = Some (Some f) ->
  closed f = false ->
  let text := lines_of env (sep self) (now w) entries in
  log_all env entries (self, w)
  = (Ok tt,
     (with_out self (Some (mkFile (path f) false (content f ++ text))), w)) /\
  ((forall e, In e entries ->
      count_lines (line_of env (sep self) (now w) e) = 1%nat) ->
   count_lines (content f ++ text)
   = (count_lines (content f) + List.length entries)%nat).
Proof.
  induction entries as [|[tag msg] entries IH]; intros self w f O C text.
  - subst text. cbn [lines_of log_all List.length]. split.
    + unfold ret, with_out.
      replace (content f ++ "") with (content f)
        by (clear; induction (content f) as [|x s IHs]; cbn; congruence).
      destruct self as [fn sp po ss it ou]; destruct f as [pa cl co];
        cbn in *; subst; reflexivity.
    + intros _. rewrite count_lines_app. cbn. lia.
  - pose proof (log_open tag msg self w f O C) as L.
    set (f1 := mkFile (path f) false
                 (content f ++ line_of env (sep self) (now w) (tag, msg))).
    destruct (IH (with_out self (Some f1)) w f1 eq_refl eq_refl) as [R N].
    split.
    + cbn [log_all]. unfold bind. rewrite L.
      fold f1. rewrite R. subst text f1. cbn [lines_of content path].
      unfold with_out. cbn. now rewrite append_assoc.
    + intros H. subst text. cbn [lines_of List.length].
      rewrite <- append_assoc.
      change (content f ++ line_of env (sep self) (now w) (tag, msg))
        with (content f1).
      change (sep self) with (sep (with_out self (Some f1))).
      rewrite N.
      * subst f1. cbn [content]. rewrite count_lines_app.
        rewrite (H (tag, msg)) by now left. lia.
      * intros e I. apply H. now right.
Qed.

(** X15: [stop] on an open stream closes it and keeps what was written;
    it stops the RPC server when asked to and the server was started, and
    not otherwise.  After it [log] raises the error of a closed file and
    changes nothing. *)
Theorem EventLogger_log_after_stop_fails stop_server self w f :
  out self = Some (Some f) ->
  let closed_file := mkFile (path f) true (content f) in
  let w1 := emit (EvInfo "Logger stopped")
              (if stop_server && serverStarted self
               then emit EvRpcStop w else w) in
  stop stop_server (self, w)
  = (Ok tt, (with_out self (Some closed_file), w1)) /\
  forall tag msg,
    log env tag msg (with_out self (Some closed_file), w1)
    = (Raise (ValueError "I/O operation on closed file"),
       (with_out self (Some closed_file), w1)).
Proof.
  intros O closed_file w1. split.
  - unfold stop, get_out, bind, get, ret, raise, set_out, when, log_event,
      modify. cbn [fst snd]. rewrite O. cbn [fst snd serverStarted].
    subst w1. fold closed_file. unfold with_out.
    now destruct (stop_server && serverStarted self).
  - intros tag msg. reflexivity.
Qed.

(** X16: [stop] called a second time finds the stream closed and leaves it
    so, but it does not remember that the server was stopped: with
    [serverStarted] true it calls [rpc.stop_server] again. *)
Theorem EventLogger_stop_twice_stops_server_twice self w f :
  out self = Some (Some f) ->
  serverStarted self = true ->
  (stop true ;; stop true) (self, w)
  = (Ok tt,
     (with_out self (Some (mkFile (path f) true (content f))),
      emit (EvInfo "Logger stopped")
        (emit EvRpcStop
           (emit (EvInfo "Logger stopped") (emit EvRpcStop w))))).
Proof.
  intros O S1.
  unfold stop, get_out, bind, get, ret, raise, set_out, when, log_event,
    modify, with_out. cbn [fst snd]. rewrite O.
  cbn [fst snd serverStarted out]. rewrite S1. reflexivity.
Qed.

End EventLoggerMore.

Lemma EventLogger_log_all_appends_in_order_witness :
  exists self w,
    EventLogger.__init__ Sample.logenv (Some "/var/log/lumos/events.log")
      EventLogger.default_sep EventLogger.default_port true true
      (Sample.at_time 1425211200000) = (Ok tt, (self, w)) /\
    exists self',
      EventLogger.log_all Sample.logenv
        [("cam0", "frame 1"); ("cam1", "frame 1")] (self, w)
      = (Ok tt, (self', w)) /\
      EventLogger.out self'
      = Some (Some (EventLogger.mkFile "/var/log/lumos/events.log" false
                      (EventLogger.lines_of Sample.logenv
                         EventLogger.default_sep 1425211200000
                         [("cam0", "frame 1"); ("cam1", "frame 1")]))).
Proof.
  eexists. eexists. split; [vm_compute; reflexivity|].
  eexists. split.
  - refine (proj1 (EventLogger_log_all_appends_in_order Sample.logenv
                     [("cam0", "frame 1"); ("cam1", "frame 1")] _ _
                     (EventLogger.mkFile "/var/log/lumos/events.log" false "")
                     _ _)); reflexivity.
  - reflexivity.
Defined.

Lemma EventLogger_log_after_stop_fails_witness :
  exists self w,
    EventLogger.__init__ Sample.logenv (Some "/var/log/lumos/events.log")
      EventLogger.default_sep EventLogger.default_port true true
      (Sample.at_time 0) = (Ok tt, (self, w)) /\
    exists st,
      EventLogger.stop true (self, w) = (Ok tt, st) /\
      fst (EventLogger.log Sample.logenv "cam0" "late" st)
      = Raise (ValueError "I/O operation on closed file").
Proof.
  eexists. eexists. split; [vm_compute; reflexivity|].
  eexists. split.
  - refine (proj1 (EventLogger_log_after_stop_fails Sample.logenv true _ _
                     (EventLogger.mkFile "/var/log/lumos/events.log" false "")
                     _)); reflexivity.
  - reflexivity.
Defined.

Lemma EventLogger_stop_twice_stops_server_twice_witness :
  exists self w,
    EventLogger.__init__ Sample.logenv (Some "/var/log/lumos/events.log")
      EventLogger.default_sep EventLogger.default_port true true
      (Sample.at_time 0) = (Ok tt, (self, w)) /\
    exists self' w',
      (EventLogger.stop true ;; EventLogger.stop true) (self, w)
      = (Ok tt, (self', w')) /\
      List.length (filter (fun e => match e with EvRpcStop => true | _ => false end)
                     (events w')) = 2%nat.
Proof.
  eexists. eexists. split; [vm_compute; reflexivity|].
  eexists. eexists. split.
  - refine (EventLogger_stop_twice_stops_server_twice _ _
              (EventLogger.mkFile "/var/log/lumos/events.log" false "") _ _);
      reflexivity.
  - reflexivity.
Defined.

(** ** The programs of net.py *)

Section NetFacts.

Import Net.

Lemma image_server_loop_raise captures : forall srv e srv',
  image_server_loop captures srv = (Raise e, srv') -> In (Failed e) captures.
Proof.
  induction captures as [|c captures IH]; intros srv e srv' E; cbn in E.
  - discriminate E.
  - destruct c as [img| |e0].
    + right. exact (IH _ _ _ E).
    + discriminate E.
    + injection E as <- <-. now left.
Qed.

(** X17: whatever the input device delivers (frames to the end, a
    keyboard interrupt, an exception), the server that [image_server]
    starts is stopped once before the function is left, and after
    everything else: it was exported and started on the port given, and
    it is left without image and with its flag up.  An exception that
    leaves the function is one the device raised. *)
Theorem Net_serve_always_stops captures port w :
  exists r imageServer w',
    serve captures port w = (r, (imageServer, w')) /\
    ImageServer.image imageServer = None /\
    ImageServer.isFresh imageServer = true /\
    events w'
    = (events w ++ [EvRpcExport "ImageServer"; EvRpcStart port; EvRpcStop])%list /\
    now w' = now w /\
    (forall e, r = Raise e -> In (Failed e) captures).
Proof.
  unfold serve, with_exit. cbn [ImageServer.__init__ fst snd].
  destruct (image_server_loop captures
              (ImageServer.__enter__
                 {| ImageServer.image :=
                      ImageServer.image ImageServer.OutputDevice_init;
                    ImageServer.isFresh := true |})) as [r srv] eqn:E.
  destruct r as [[]|e].
  - eexists. eexists. eexists. split; [reflexivity|].
    cbn. rewrite <- !app_assoc. repeat split. discriminate.
  - eexists. eexists. eexists. split; [reflexivity|].
    cbn. rewrite <- !app_assoc. repeat split.
    intros e' H. injection H as <-. exact (image_server_loop_raise _ _ _ _ E).
Qed.

Lemma last_cons {A} (a d : A) l : last (a :: l) d = last l a.
Proof.
  revert a d. induction l as [|b l IH]; intros a d; [reflexivity|].
  change (last (a :: b :: l) d) with (last (b :: l) d).
  now rewrite (IH b d), (IH b a).
Qed.

(** X18: the loop of [image_server] writes every frame it captures to the
    server, so that the image of the server, when the loop is left, is the
    last frame captured before the end of the stream, the interrupt or the
    exception (and the image it had, when there was no frame at all); the
    loop does not touch [isFresh], and raises only what the device
    raised. *)
Theorem Net_image_server_publishes_last_frame imgs tail : forall srv,
  match tail with Frame _ :: _ => False | _ => True end ->
  let r := image_server_loop (map Frame imgs ++ tail) srv in
  fst r = match tail with Failed e :: _ => Raise e | _ => Ok tt end /\
  ImageServer.image (snd r) = last (map Some imgs) (ImageServer.image srv) /\
  ImageServer.isFresh (snd r) = ImageServer.isFresh srv.
Proof.
  induction imgs as [|img imgs IH]; intros srv T; cbn zeta.
  - cbn [map app]. destruct tail as [|[i| |e] rest]; cbn; try contradiction;
      repeat split.
  - cbn [map app image_server_loop]. rewrite last_cons.
    exact (IH (ImageServer.write img srv) T).
Qed.

(** X19: called without a device, [image_server] creates the context
    first, and when that fails it raises the same exception having built
    no server: nothing was exported to the transport and no server was
    started or stopped. *)
Theorem Net_image_server_needs_context env opts dev port p e p1 :
  Context.createInstance env opts p = (Raise e, p1) ->
  image_server env opts dev None port p = (Raise e, p1).
Proof.
  intros E. unfold image_server, bind. now rewrite E.
Qed.

(** X20: [key & 0x7f == 0x1b] looks at the seven low bits of the key code
    only: a key stops the display loop exactly when its code is 27 modulo
    128.  The -1 that [waitKey] returns when no key was pressed does not
    stop it, Escape does, and so does Escape with any higher bits set. *)
Theorem Net_escape_test_uses_low_bits key :
  (is_escape key = true <-> key mod 128 = 27) /\
  is_escape (-1) = false /\ is_escape 27 = true /\
  (forall flags, is_escape (27 + 128 * flags) = true).
Proof.
  assert (L : forall k, Z.land k 0x7f = k mod 128).
  { intros k. change 0x7f with (Z.ones 7). now rewrite Z.land_ones. }
  assert (I : forall k, is_escape k = true <-> k mod 128 = 27).
  { intros k. unfold is_escape. rewrite L. apply Z.eqb_eq. }
  split; [apply I|]. split; [reflexivity|]. split; [reflexivity|].
  intros flags. apply I.
  replace (27 + 128 * flags) with (27 + flags * 128) by lia.
  rewrite Z.mod_add by lia. reflexivity.
Qed.

Lemma skipn_nil_any {A} n : skipn n (@nil A) = [].
Proof. now destruct n. Qed.

(** X21: the display loop of [image_client] goes through the replies as
    long as they are images, and is left at the first reply that is none
    (or when the call times out or is interrupted).  Without GUI it shows
    nothing and reads no key.  With GUI, as long as no key read stops it,
    it shows every image received, in order, and reads one key per
    image. *)
Theorem Net_image_client_shows_frames_until_end imageClient imgs tail :
  forall keys shown,
  match tail with Answer (PyArray _) :: _ => False | _ => True end ->
  let replies := (map (fun a => Answer (PyArray a)) imgs ++ tail)%list in
  image_client_loop imageClient false replies keys shown
  = (tl tail, keys, shown) /\
  ((forall kp, In kp (firstn (List.length imgs) keys) ->
               exists k, kp = Key k /\ is_escape k = false) ->
   image_client_loop imageClient true replies keys shown
   = (tl tail, skipn (List.length imgs) keys,
      (shown ++ map PyArray imgs)%list)).
Proof.
  induction imgs as [|a imgs IH]; intros keys shown T; cbn zeta.
  - cbn [map app List.length firstn skipn]. rewrite app_nil_r.
    destruct tail as [|[v|] rest]; try (split; reflexivity).
    destruct v; try contradiction; split; reflexivity.
  - cbn [map app List.length image_client_loop].
    change (read_reply imageClient (PyArray a)) with (true, PyArray a).
    cbn [negb]. split.
    + exact (proj1 (IH keys shown T)).
    + intros K. destruct keys as [|kp ks].
      * change (is_escape (-1)) with false. cbv iota.
        rewrite (proj2 (IH [] (shown ++ [PyArray a])%list T)).
        -- rewrite !skipn_nil_any, <- app_assoc. reflexivity.
        -- rewrite firstn_nil. intros kp [].
      * destruct (K kp (or_introl eq_refl)) as (k & -> & Hk). rewrite Hk.
        rewrite (proj2 (IH ks (shown ++ [PyArray a])%list T)).
        -- cbn [skipn]. rewrite <- app_assoc. reflexivity.
        -- intros kp I. apply K. now right.
Qed.

Lemma event_logger_loop_spec n : forall w,
  now (event_logger_loop n w) = now w + 60000 * Z.of_nat n /\
  events (event_logger_loop n w) = events w.
Proof.
  induction n as [|n IH]; intros w; cbn [event_logger_loop].
  - split; [lia | reflexivity].
  - destruct (IH {| now := now w + 60000; sched := sched w;
                    slept := S (slept w); events := events w |}) as [N E].
    rewrite N, E. cbn [now events]. split; [lia | reflexivity].
Qed.

(** X22: when the log file of the default name cannot be opened,
    [event_logger] still runs its loop, and when the loop is interrupted
    the [__exit__] of the logger raises [AttributeError] for [out]: the
    program ends with that exception, however long it ran. *)
Theorem Net_event_logger_degraded_exit_raises cenv opts lenv n p c p1 :
  Context.createInstance cenv opts p = (Ok c, p1) ->
  EventLogger.can_open lenv
    ("logs/events_"
     ++ EventLogger.strftime lenv EventLogger.timestamp_format
          (now (Context.world p1)) ++ ".log") = false ->
  exists p2 self,
    event_logger cenv opts lenv n p
    = (Raise (AttributeError "out"), p2, Some self) /\
    EventLogger.out self = None /\
    now (Context.world p2) = now (Context.world p1) + 60000 * Z.of_nat n.
Proof.
  intros E O. unfold event_logger. rewrite E.
  unfold EventLogger.__init__, EventLogger.init_body, try_except, bind, get,
    raise, EventLogger.log_event, modify.
  cbn [fst snd EventLogger.filename]. rewrite O.
  unfold with_exit, bind, EventLogger.__enter__, EventLogger.__exit__, ret,
    modify, EventLogger.stop, EventLogger.get_out, bind, get, raise.
  cbn [fst snd EventLogger.out].
  eexists. eexists. split; [reflexivity|]. split; [reflexivity|].
  cbn [Context.world]. now rewrite (proj1 (event_logger_loop_spec n _)).
Qed.

(** X23: when the log file can be opened and the transport works,
    [event_logger] ends without exception once its loop is interrupted:
    the stream is closed, and the server that was started is stopped,
    once, after the loop. *)
Theorem Net_event_logger_releases cenv opts lenv n p c p1 :
  Context.createInstance cenv opts p = (Ok c, p1) ->
  let name := "logs/events_"
              ++ EventLogger.strftime lenv EventLogger.timestamp_format
                   (now (Context.world p1)) ++ ".log" in
  EventLogger.can_open lenv name = true ->
  EventLogger.rpc_export lenv = None ->
  EventLogger.rpc_start_server_thread lenv EventLogger.default_port = None ->
  exists p2 self,
    event_logger cenv opts lenv n p = (Ok tt, p2, Some self) /\
    EventLogger.out self = Some (Some (EventLogger.mkFile name true "")) /\
    Context.instance p2 = Context.instance p1 /\
    events (Context.world p2)
    = (events (Context.world p1)
       ++ [EvRpcExport "EventLogger"; EvRpcStart EventLogger.default_port;
           EvInfo ("Logger successfully initialized; filename: " ++ name);
           EvRpcStop; EvInfo "Logger stopped"])%list.
Proof.
  intros E name O X T. unfold event_logger. rewrite E.
  unfold EventLogger.__init__. fold name.
  unfold EventLogger.init_body, try_except, bind, get, raise, ret, when,
    EventLogger.log_event, EventLogger.set_out, EventLogger.set_serverStarted,
    modify.
  cbn [fst snd EventLogger.filename EventLogger.port]. rewrite O, X.
  cbn [fst snd EventLogger.filename EventLogger.port]. rewrite T.
  unfold with_exit, bind, EventLogger.__enter__, EventLogger.__exit__, ret,
    modify, EventLogger.stop, EventLogger.get_out, bind, get, raise, ret,
    when, EventLogger.set_out, EventLogger.log_event, modify.
  cbn [fst snd EventLogger.out EventLogger.serverStarted andb
       EventLogger.path EventLogger.content EventLogger.filename].
  eexists. eexists. split; [reflexivity|]. split; [reflexivity|].
  split; [reflexivity|].
  cbn [Context.world emit events].
  rewrite (proj2 (event_logger_loop_spec n _)). unfold emit. cbn [events].
  now rewrite <- !app_assoc.
Qed.

End NetFacts.

Lemma Net_serve_always_stops_witness :
  exists r imageServer w',
    Net.serve [Net.Frame Sample.frame; Net.Failed (IOError "/dev/video0")]
      61616 (Sample.quiet 0) = (r, (imageServer, w')) /\
    events w' = [EvRpcExport "ImageServer"; EvRpcStart 61616; EvRpcStop] /\
    r = Raise (IOError "/dev/video0").
Proof.
  destruct (Net_serve_always_stops
              [Net.Frame Sample.frame; Net.Failed (IOError "/dev/video0")]
              61616 (Sample.quiet 0))
    as (r & srv & w' & E & _ & _ & Ev & _ & _).
  exists r, srv, w'. split; [exact E|]. split; [exact Ev|].
  vm_compute in E. now injection E as <- _ _.
Defined.

Lemma Net_image_server_publishes_last_frame_witness :
  ImageServer.image
    (snd (Net.image_server_loop
            (map Net.Frame [Sample.frame; mkNdarray [1%nat] [7]]
             ++ [Net.Interrupted; Net.Frame Sample.frame])
            Sample.server0))
  = Some (mkNdarray [1%nat] [7]).
Proof.
  refine (proj1 (proj2 (Net_image_server_publishes_last_frame
                          [Sample.frame; mkNdarray [1%nat] [7]]
                          [Net.Interrupted; Net.Frame Sample.frame]
                          Sample.server0 _))).
  exact I.
Defined.

Lemma Net_image_server_needs_context_witness :
  exists p1,
    Net.image_server Sample.env (Sample.opts_for "missing.yaml" "0")
      (fun _ => [Net.Frame Sample.frame]) None 61616 Sample.proc0
    = (Raise (IOError "missing.yaml"), p1) /\
    events (Context.world p1)
    = [EvPrint "Context.__init__(): Error reading config file: missing.yaml"].
Proof.
  eexists. split.
  - apply (Net_image_server_needs_context Sample.env
             (Sample.opts_for "missing.yaml" "0")).
    vm_compute. reflexivity.
  - reflexivity.
Defined.

Lemma Net_image_client_shows_frames_until_end_witness :
  Net.image_client_loop Sample.client true
    [Net.Answer (PyArray Sample.frame); Net.Answer (PyArray Sample.frame);
     Net.Answer PyNone; Net.Answer (PyArray Sample.frame)]
    [Net.Key (-1); Net.Key 97; Net.Key 27] []
  = ([Net.Answer (PyArray Sample.frame)], [Net.Key 27],
     [PyArray Sample.frame; PyArray Sample.frame]).
Proof.
  refine (proj2 (Net_image_client_shows_frames_until_end Sample.client
                   [Sample.frame; Sample.frame]
                   [Net.Answer PyNone; Net.Answer (PyArray Sample.frame)]
                   [Net.Key (-1); Net.Key 97; Net.Key 27] [] _) _).
  - exact I.
  - intros kp [<-|[<-|[]]]; eexists; split; reflexivity.
Defined.

Lemma Net_event_logger_degraded_exit_raises_witness :
  fst (fst (Net.event_logger Sample.env Sample.opts Sample.logenv 3
              Sample.proc0))
  = Raise (AttributeError "out").
Proof.
  destruct (Context.createInstance Sample.env Sample.opts Sample.proc0)
    as [[c|e] p1] eqn:E; [|vm_compute in E; discriminate E].
  destruct (Net_event_logger_degraded_exit_raises Sample.env Sample.opts
              Sample.logenv 3 _ _ _ E eq_refl) as (p2 & self & R & _).
  now rewrite R.
Defined.

Lemma Net_event_logger_releases_witness :
  fst (fst (Net.event_logger Sample.env Sample.opts Sample.logenv_open 3
              Sample.proc0))
  = Ok tt.
Proof.
  destruct (Context.createInstance Sample.env Sample.opts Sample.proc0)
    as [[c|e] p1] eqn:E; [|vm_compute in E; discriminate E].
  destruct (Net_event_logger_releases Sample.env Sample.opts
              Sample.logenv_open 3 _ _ _ E eq_refl eq_refl eq_refl)
    as (p2 & self & R & _).
  now rewrite R.
Defined.
